(** * run_task.py: the batch task runner of Agent B

    A shallow embedding of [run_all_tasks], [generate_summary_report] and
    [run_single_task].  The execution agent ([AgentB], imported from
    [agent_b]) is an interface: any state type with the three operations
    the runner calls.  The runner itself is written in a state-and-exception
    monad over a [World] that holds the agent object, the local list
    [results], the sequence of external calls made so far and the lines
    printed so far.  The command-line dispatch under [__main__] is not part
    of the embedding. *)

From stdpp Require Import base list strings gmap pretty.
From Stdlib Require Import ZArith Lia.

Open Scope string_scope.
Open Scope list_scope.

(** ** Exceptions and results *)

(** Python exceptions, split the way [except Exception] splits them: the
    instances of [Exception], and the instances of [BaseException] that are
    not (KeyboardInterrupt, SystemExit, asyncio.CancelledError).  The
    argument is [str(e)]. *)
Inductive PyExn : Type :=
| Exception (msg : string)
| BaseException (msg : string).

Definition isinstance_Exception (e : PyExn) : bool :=
  match e with
  | Exception _ => true
  | BaseException _ => false
  end.

Definition str_exn (e : PyExn) : string :=
  match e with
  | Exception msg => msg
  | BaseException msg => msg
  end.

(** The result of a call: a returned value or a raised exception. *)
Inductive Res (T : Type) : Type :=
| Ret (v : T)
| Raise (e : PyExn).
Arguments Ret {T} v.
Arguments Raise {T} e.

Definition returns {T : Type} (r : Res T) : bool :=
  match r with
  | Ret _ => true
  | Raise _ => false
  end.

(** What [except Exception] can handle: a return, or an [Exception]. *)
Definition catchable {T : Type} (r : Res T) : bool :=
  match r with
  | Ret _ => true
  | Raise e => isinstance_Exception e
  end.

(** ** The job catalog *)

(** An entry of [TASKS]: a dict with the four keys below. *)
Record Task : Type := mkTask {
  app : string;
  description : string;
  url : string;
  expected_states : list string
}.

Definition TASKS : list Task :=
  [ mkTask "Linear" "Create a new project in Linear"
      "https://linear.app/test916/team/TES/active"
      [ "Projects list view"; "Create project button visible";
        "Create project modal open"; "Project name input field";
        "Project settings options"; "Success state with new project" ];
    mkTask "Linear" "Create a new issue in Linear"
      "https://linear.app/test916/team/TES/active"
      [ "Issues board view"; "New issue button visible";
        "Issue creation modal"; "Title and description fields";
        "Priority and assignee options"; "Issue created confirmation" ];
    mkTask "Linear" "Filter issues by status in Linear"
      "https://linear.app/test916/team/TES/active"
      [ "Issues view with filters"; "Filter menu button";
        "Filter dropdown expanded"; "Status filter options";
        "Applied filter view"; "Filtered results displayed" ];
    mkTask "Notion" "Create a new page in Notion"
      "https://www.notion.so/"
      [ "Notion workspace"; "New page button"; "Empty page editor";
        "Title input"; "Content area"; "Page saved" ];
    mkTask "Notion" "Filter a database by property in Notion"
      "https://www.notion.so/"
      [ "Database view"; "Filter button visible"; "Filter options panel";
        "Property selection"; "Filter applied"; "Filtered database results" ] ].

(** ** Outcome records and the report *)

(** An element of [results]: a dict with the keys "task", "app", "status"
    and either "manifest" or "error".  A key that the dict does not have is
    [None]. *)
Record Outcome : Type := mkOutcome {
  r_task : string;
  r_app : string;
  r_status : string;
  r_manifest : option string;
  r_error : option string
}.

Record DatasetStructure : Type := mkDatasetStructure {
  root : string;
  format : string;
  manifest_fields : list string;
  state_fields : list string
}.

(** The dict [report] of [generate_summary_report]. *)
Record Report : Type := mkReport {
  total_tasks : nat;
  successful_tasks : nat;
  failed_tasks : nat;
  apps_covered : list string;
  tasks : list Outcome;
  dataset_structure : DatasetStructure
}.

(** ** The world *)

(** The calls the runner makes on the outside: the three agent operations
    with their arguments, [asyncio.sleep], and the [json.dump] of the report
    into "dataset_summary.json". *)
Inductive Event : Type :=
| EInit (headless : bool)
| EExec (task_description start_url : string) (max_steps : Z)
| ESleep (seconds : Z)
| EClose
| EDump (report : Report).

(** The execution agent: a state and the three operations, each of which may
    raise.  What [execute_task] returns is kept as its [str()], the only way
    the runner uses it. *)
Class AgentB (A : Type) : Type := {
  initialize_browser : bool -> A -> Res unit * A;
  execute_task : string -> string -> Z -> A -> Res string * A;
  close_browser : A -> Res unit * A
}.

(** [agent] is the object bound by [agent = AgentB()], [results] the local
    list, [trace] the outside calls (oldest first) and [stdout] the
    arguments of the [print] calls (oldest first). *)
Record World (A : Type) : Type := mkWorld {
  agent : A;
  results : list Outcome;
  trace : list Event;
  stdout : list string
}.
Arguments mkWorld {A} _ _ _ _.
Arguments agent {A} _.
Arguments results {A} _.
Arguments trace {A} _.
Arguments stdout {A} _.

(** The world in which a fresh agent [a] has been constructed and nothing
    has happened yet. *)
Definition init_world {A : Type} (a : A) : World A := mkWorld a [] [] [].

(** ** The monad *)

Definition M (A T : Type) : Type := World A -> Res T * World A.

Definition ret {A T : Type} (v : T) : M A T := fun w => (Ret v, w).

Definition bind {A T U : Type} (m : M A T) (k : T -> M A U) : M A U :=
  fun w =>
    match m w with
    | (Ret v, w1) => k v w1
    | (Raise e, w1) => (Raise e, w1)
    end.

Declare Scope py_scope.
Delimit Scope py_scope with py.
Notation "x <- m ;; k" := (bind m (fun x => k))
  (at level 100, m at next level, right associativity) : py_scope.
Notation "m ;; k" := (bind m (fun _ => k))
  (at level 100, right associativity) : py_scope.
Open Scope py_scope.

(** [try: body finally: fin].  The cleanup runs on every path; an exception
    of the cleanup replaces the outcome of the body. *)
Definition try_finally {A T : Type} (body : M A T) (fin : M A unit) : M A T :=
  fun w =>
    let (r, w1) := body w in
    match fin w1 with
    | (Ret _, w2) => (r, w2)
    | (Raise e, w2) => (Raise e, w2)
    end.

(** [try: body except Exception as e: handler e]. *)
Definition try_except_Exception {A T : Type}
    (body : M A T) (handler : PyExn -> M A T) : M A T :=
  fun w =>
    match body w with
    | (Ret v, w1) => (Ret v, w1)
    | (Raise e, w1) =>
        if isinstance_Exception e then handler e w1 else (Raise e, w1)
    end.

(** [for i, x in enumerate(l, start): body i x]. *)
Fixpoint for_enumerate {A T : Type} (l : list T) (start : nat)
    (body : nat -> T -> M A unit) : M A unit :=
  match l with
  | [] => ret tt
  | x :: xs => body start x ;; for_enumerate xs (S start) body
  end.

(** ** Primitive effects *)

Definition emit {A : Type} (ev : Event) : M A unit :=
  fun w => (Ret tt, mkWorld (agent w) (results w) (trace w ++ [ev]) (stdout w)).

Definition print {A : Type} (s : string) : M A unit :=
  fun w => (Ret tt, mkWorld (agent w) (results w) (trace w) (stdout w ++ [s])).

(** [results = []] *)
Definition results_new {A : Type} : M A unit :=
  fun w => (Ret tt, mkWorld (agent w) [] (trace w) (stdout w)).

(** [results.append(r)] *)
Definition results_append {A : Type} (r : Outcome) : M A unit :=
  fun w => (Ret tt, mkWorld (agent w) (results w ++ [r]) (trace w) (stdout w)).

Definition get_results {A : Type} : M A (list Outcome) :=
  fun w => (Ret (results w), w).

(** [await asyncio.sleep(n)]; the sleep is taken to return. *)
Definition asyncio_sleep {A : Type} (n : Z) : M A unit := emit (ESleep n).

(** A call on the agent object: the call is recorded, then the agent runs. *)
Definition call_agent {A T : Type} (ev : Event) (op : A -> Res T * A) : M A T :=
  emit ev ;;
  fun w =>
    let (r, a) := op (agent w) in
    (r, mkWorld a (results w) (trace w) (stdout w)).

Definition agent_initialize_browser {A : Type} `{AgentB A} (headless : bool)
    : M A unit :=
  call_agent (EInit headless) (initialize_browser headless).

Definition agent_execute_task {A : Type} `{AgentB A}
    (task_description start_url : string) (max_steps : Z) : M A string :=
  call_agent (EExec task_description start_url max_steps)
             (execute_task task_description start_url max_steps).

Definition agent_close_browser {A : Type} `{AgentB A} : M A unit :=
  call_agent EClose close_browser.

(** ** Python helpers *)

Definition NL : string := String (Ascii.ascii_of_nat 10) "".

(** [s * n] *)
Fixpoint str_mul (s : string) (n : nat) : string :=
  match n with
  | O => ""
  | S n' => s +:+ str_mul s n'
  end.

(** [sum(l)] *)
Definition py_sum (l : list nat) : nat := foldl Nat.add 0 l.

(** [(1 for r in results if r['status'] == s)] *)
Definition ones_with_status (s : string) (rs : list Outcome) : list nat :=
  flat_map (fun r => if String.eqb (r_status r) s then [1] else []) rs.

(** [l[i]] with Python's negative indices and [IndexError]. *)
Definition py_getitem {T : Type} (l : list T) (i : Z) : Res T :=
  let n := Z.of_nat (length l) in
  let j := if (i <? 0)%Z then (n + i)%Z else i in
  if ((0 <=? j)%Z && (j <? n)%Z)%bool then
    match l !! Z.to_nat j with
    | Some x => Ret x
    | None => Raise (Exception "list index out of range")
    end
  else Raise (Exception "list index out of range").

(** ** generate_summary_report *)

Definition the_dataset_structure : DatasetStructure :=
  mkDatasetStructure
    "captured_states/"
    "Each task has its own directory with manifest.json and screenshots"
    [ "task"; "total_steps"; "states (array of state objects)"; "captured_at" ]
    [ "step"; "description"; "timestamp"; "url"; "screenshot"; "viewport";
      "title"; "metadata" ].

(** The dict built at the top of [generate_summary_report].  The order of
    [list(set(...))] is whatever the set iterates in; here it is the order
    of [elements]. *)
Definition make_report (rs : list Outcome) : Report :=
  mkReport
    (length rs)
    (py_sum (ones_with_status "success" rs))
    (py_sum (ones_with_status "failed" rs))
    (elements (list_to_set (r_app <$> rs) : gset string))
    rs
    the_dataset_structure.

(** [generate_summary_report(results)]; [open] and [json.dump] are taken to
    succeed. *)
Definition generate_summary_report {A : Type} (rs : list Outcome) : M A unit :=
  let report := make_report rs in
  emit (EDump report) ;;
  print (NL +:+ "📊 Summary report generated: dataset_summary.json").

(** ** The runner *)

Definition lift_res {A T : Type} (r : Res T) : M A T := fun w => (r, w).

Definition banner : string := str_mul "=" 80.

Section Runner.
Context {A : Type} `{AgentB A}.

(** The body of the [for] loop of [run_all_tasks]; [n] is [len(TASKS)]. *)
Definition run_one (n : nat) (i : nat) (task : Task) : M A unit :=
  print (NL +:+ banner) ;;
  print ("TASK " +:+ pretty i +:+ "/" +:+ pretty n +:+ ": " +:+ app task) ;;
  print banner ;;
  print ("Description: " +:+ description task) ;;
  print ("URL: " +:+ url task) ;;
  print ("Expected states: " +:+ pretty (length (expected_states task))) ;;
  print "" ;;
  try_except_Exception
    (manifest_path <- agent_execute_task (description task) (url task) 15 ;;
     results_append
       (mkOutcome (description task) (app task) "success"
                  (Some manifest_path) None) ;;
     print (NL +:+ "✅ Task " +:+ pretty i +:+ " completed successfully!") ;;
     asyncio_sleep 3)
    (fun e =>
       print (NL +:+ "❌ Task " +:+ pretty i +:+ " failed: " +:+ str_exn e) ;;
       results_append
         (mkOutcome (description task) (app task) "failed"
                    None (Some (str_exn e)))).

(** [run_all_tasks(headless)], with the module global [TASKS] as the
    parameter [catalog].  The agent of the starting world is the object
    that [AgentB()] has just built. *)
Definition run_all_tasks (catalog : list Task) (headless : bool) : M A unit :=
  print banner ;;
  print "AGENT B: UI STATE CAPTURE SYSTEM" ;;
  print banner ;;
  print (NL +:+ "Preparing to capture " +:+ pretty (length catalog)
            +:+ " tasks across multiple apps" +:+ NL) ;;
  results_new ;;
  try_finally
    (agent_initialize_browser headless ;;
     for_enumerate catalog 1 (run_one (length catalog)))
    agent_close_browser ;;
  rs <- get_results ;;
  generate_summary_report rs ;;
  print (NL +:+ banner) ;;
  print "ALL TASKS COMPLETED" ;;
  print banner ;;
  print (NL +:+ "Total tasks: " +:+ pretty (length rs)) ;;
  print ("Successful: " +:+ pretty (py_sum (ones_with_status "success" rs))) ;;
  print ("Failed: " +:+ pretty (py_sum (ones_with_status "failed" rs))) ;;
  print (NL +:+ "Dataset location: ./captured_states/") ;;
  print "Summary report: ./dataset_summary.json".

(** [run_single_task(task_index, headless)]. *)
Definition run_single_task (catalog : list Task) (task_index : Z)
    (headless : bool) : M A unit :=
  if (task_index >=? Z.of_nat (length catalog))%Z then
    print ("Invalid task index. Available tasks: 0-"
             +:+ pretty (Z.of_nat (length catalog) - 1)%Z)
  else
    task <- lift_res (py_getitem catalog task_index) ;;
    print (NL +:+ "🎯 Running single task: " +:+ description task +:+ NL) ;;
    try_finally
      (agent_initialize_browser headless ;;
       manifest_path <- agent_execute_task (description task) (url task) 15 ;;
       print (NL +:+ "✅ Task completed! Manifest: " +:+ manifest_path))
      agent_close_browser.

End Runner.

(** ** A counting fake agent

    The fake answers from a script and counts the calls it receives:
    [initialize_browser] and [close_browser] give a fixed answer,
    [execute_task] gives the next answer of the schedule (and a manifest
    path once the schedule is used up). *)
Record Fake : Type := mkFake {
  init_answer : Res unit;
  schedule : list (Res string);
  close_answer : Res unit;
  init_calls : nat;
  exec_calls : nat;
  close_calls : nat
}.

#[export] Instance Fake_AgentB : AgentB Fake := {
  initialize_browser _ a :=
    (init_answer a,
     mkFake (init_answer a) (schedule a) (close_answer a)
            (S (init_calls a)) (exec_calls a) (close_calls a));
  execute_task _ _ _ a :=
    (match schedule a with
     | [] => Ret "captured_states/manifest.json"
     | r :: _ => r
     end,
     mkFake (init_answer a) (tail (schedule a)) (close_answer a)
            (init_calls a) (S (exec_calls a)) (close_calls a));
  close_browser a :=
    (close_answer a,
     mkFake (init_answer a) (schedule a) (close_answer a)
            (init_calls a) (exec_calls a) (S (close_calls a)))
}.

(** A fake whose session starts and closes, with the given schedule. *)
Definition fake (sched : list (Res string)) : Fake :=
  mkFake (Ret tt) sched (Ret tt) 0 0 0.


(** ** What the agent answers, job by job

    The loop calls [execute_task] once per job, in catalog order, always on
    the state the previous call left.  [answers] replays the agent against
    those calls; [agent_after] is the state they leave. *)
Section Replay.
Context {A : Type} `{AgentB A}.

Fixpoint answers (jobs : list Task) (a : A) : list (Res string) :=
  match jobs with
  | [] => []
  | t :: ts =>
      let (r, a') := execute_task (description t) (url t) 15 a in
      r :: answers ts a'
  end.

Fixpoint agent_after (jobs : list Task) (a : A) : A :=
  match jobs with
  | [] => a
  | t :: ts =>
      agent_after ts (snd (execute_task (description t) (url t) 15 a))
  end.

End Replay.

(** The record the loop appends for a job, given the agent's answer. *)
Definition outcome_of (t : Task) (r : Res string) : Outcome :=
  match r with
  | Ret manifest_path =>
      mkOutcome (description t) (app t) "success" (Some manifest_path) None
  | Raise e =>
      mkOutcome (description t) (app t) "failed" None (Some (str_exn e))
  end.

(** The outside calls of one iteration, given the agent's answer. *)
Definition events_of (t : Task) (r : Res string) : list Event :=
  EExec (description t) (url t) 15 :: (if returns r then [ESleep 3] else []).

(** ** Reading a trace *)

Definition is_init (ev : Event) : bool :=
  match ev with EInit _ => true | _ => false end.
Definition is_exec (ev : Event) : bool :=
  match ev with EExec _ _ _ => true | _ => false end.
Definition is_sleep (ev : Event) : bool :=
  match ev with ESleep _ => true | _ => false end.
Definition is_close (ev : Event) : bool :=
  match ev with EClose => true | _ => false end.
Definition is_dump (ev : Event) : bool :=
  match ev with EDump _ => true | _ => false end.

(** How many calls of a kind a trace holds. *)
Definition count (p : Event -> bool) (tr : list Event) : nat :=
  length (List.filter p tr).

(** The [execute_task] calls of a trace, in order. *)
Definition exec_calls_in (tr : list Event) : list Event := List.filter is_exec tr.

(** The lines printed before the session starts and after the report is
    written. *)
Definition preamble (n : nat) : list string :=
  [ banner; "AGENT B: UI STATE CAPTURE SYSTEM"; banner;
    NL +:+ "Preparing to capture " +:+ pretty n
       +:+ " tasks across multiple apps" +:+ NL ].

Definition epilogue (rs : list Outcome) : list string :=
  [ NL +:+ "📊 Summary report generated: dataset_summary.json";
    NL +:+ banner; "ALL TASKS COMPLETED"; banner;
    NL +:+ "Total tasks: " +:+ pretty (length rs);
    "Successful: " +:+ pretty (py_sum (ones_with_status "success" rs));
    "Failed: " +:+ pretty (py_sum (ones_with_status "failed" rs));
    NL +:+ "Dataset location: ./captured_states/";
    "Summary report: ./dataset_summary.json" ].

(** ** Properties of outcome records *)

Definition is_success (r : Outcome) : bool := String.eqb (r_status r) "success".
Definition is_failed (r : Outcome) : bool := String.eqb (r_status r) "failed".

(** The status is one of the two the runner writes. *)
Definition valid_status (r : Outcome) : bool := is_success r || is_failed r.

(** Exactly one of "manifest" and "error" is there, and the status says
    which. *)
Definition outcome_invariant (r : Outcome) : Prop :=
  (is_Some (r_manifest r) <-> r_status r = "success") /\
  (is_Some (r_error r) <-> r_status r = "failed") /\
  ((is_Some (r_manifest r) /\ r_error r = None) \/
   (r_manifest r = None /\ is_Some (r_error r))).

(** An outside call that one iteration over [jobs] can make. *)
Definition loop_event (jobs : list Task) (ev : Event) : Prop :=
  ev = ESleep 3 \/
  exists t, t ∈ jobs /\ ev = EExec (description t) (url t) 15.

(** ** The end of a run *)

(** The [finally] clause and what follows it, entered with the result [rl]
    of the [try] block in the world [wl]. *)
Definition after_close {A : Type} `{AgentB A} (rl : Res unit) (wl : World A)
    : Res unit * World A :=
  let (rc, ac) := close_browser (agent wl) in
  let wc := mkWorld ac (results wl) (trace wl ++ [EClose]) (stdout wl) in
  match rc, rl with
  | Raise e, _ => (Raise e, wc)
  | Ret _, Raise e => (Raise e, wc)
  | Ret _, Ret _ =>
      (Ret tt,
       mkWorld ac (results wl)
               (trace wl ++ [EClose; EDump (make_report (results wl))])
               (stdout wl ++ epilogue (results wl)))
  end.

(** The line that reports an index outside the catalog. *)
Definition invalid_selection (n : nat) : string :=
  "Invalid task index. Available tasks: 0-" +:+ pretty (Z.of_nat n - 1)%Z.

(** ** The job descriptor of the specification

    The specification gives a job a step bound of its own.  The entries of
    the catalog have no such key; [task_of_job] is the catalog entry of a
    specification job, and [spec_call] the call the specification expects
    for it. *)
Record SpecJob : Type := mkSpecJob {
  application : string;
  job_description : string;
  startUrl : string;
  expectedStates : list string;
  maxSteps : Z
}.

Definition task_of_job (j : SpecJob) : Task :=
  mkTask (application j) (job_description j) (startUrl j) (expectedStates j).

Definition spec_call (j : SpecJob) : Event :=
  EExec (job_description j) (startUrl j) (maxSteps j).

(** ** Sample data *)

Definition jobA : Task := mkTask "AppA" "do A" "https://a.example/" ["a1"; "a2"].
Definition jobB : Task := mkTask "AppB" "do B" "https://b.example/" ["b1"].

(** The agent of the scenario "JobA fails, JobB succeeds". *)
Definition fake_AB : Fake :=
  fake [Raise (Exception "boom"); Ret "captured_states/do_B/manifest.json"].

(** The same agent once [initialize_browser] has been called on it. *)
Definition fake_AB_started : Fake :=
  mkFake (Ret tt)
         [Raise (Exception "boom"); Ret "captured_states/do_B/manifest.json"]
         (Ret tt) 1 0 0.

(** An agent whose session does not start, before and after the attempt. *)
Definition fake_no_session : Fake :=
  mkFake (Raise (Exception "no browser")) [] (Ret tt) 0 0 0.
Definition fake_no_session_tried : Fake :=
  mkFake (Raise (Exception "no browser")) [] (Ret tt) 1 0 0.

Definition failedA : Outcome :=
  mkOutcome "do A" "AppA" "failed" None (Some "boom").
Definition successB : Outcome :=
  mkOutcome "do B" "AppB" "success"
            (Some "captured_states/do_B/manifest.json") None.

(** ** The command line *)

(** [c.isdigit()] and [ord(c) < 128] for one character of a string. *)
Definition is_digit_char (c : Ascii.ascii) : bool :=
  ((48 <=? Ascii.nat_of_ascii c)%nat && (Ascii.nat_of_ascii c <=? 57)%nat)%bool.

Definition is_ascii_char (c : Ascii.ascii) : bool :=
  (Ascii.nat_of_ascii c <? 128)%nat.

Fixpoint str_all (p : Ascii.ascii -> bool) (s : string) : bool :=
  match s with
  | EmptyString => true
  | String c s' => p c && str_all p s'
  end.

(** The strings of ASCII characters.  A string is kept as its bytes, so
    [str.isdigit] below is the method of Python on these strings only. *)
Definition str_is_ascii (s : string) : bool := str_all is_ascii_char s.

(** [s.isdigit()]: at least one character, and digits only. *)
Definition str_isdigit (s : string) : bool :=
  match s with
  | EmptyString => false
  | String _ _ => str_all is_digit_char s
  end.

Definition digit_value (c : Ascii.ascii) : Z :=
  (Z.of_nat (Ascii.nat_of_ascii c) - 48)%Z.

Fixpoint digits_value_from (acc : Z) (s : string) : Z :=
  match s with
  | EmptyString => acc
  | String c s' => digits_value_from (acc * 10 + digit_value c)%Z s'
  end.

(** [sys.int_max_str_digits], at its default. *)
Definition int_max_str_digits : nat := 4300.

(** [int(s)] where [s.isdigit()] holds: the decimal value, leading zeros
    allowed, and [ValueError] for more digits than the interpreter's
    limit. *)
Definition int_of_digits (s : string) : Res Z :=
  if (String.length s <=? int_max_str_digits)%nat then Ret (digits_value_from 0 s)
  else Raise (Exception
         ("Exceeds the limit (4300 digits) for integer string conversion: "
            +:+ "value has " +:+ pretty (String.length s) +:+ " digits; "
            +:+ "use sys.set_int_max_str_digits() to increase the limit")).

(** The line of the help listing for the job at position [i]. *)
Definition listing_line (i : nat) (task : Task) : string :=
  "  " +:+ pretty i +:+ ": [" +:+ app task +:+ "] " +:+ description task.

Section Main.
Context {A : Type} `{AgentB A}.

(** The block under [if __name__ == "__main__"], with [sys.argv] as the
    parameter [argv] and [TASKS] as [catalog].  [asyncio.run] runs the
    coroutine to its end and lets its exception through. *)
Definition main (catalog : list Task) (argv : list string) : M A unit :=
  if (1 <? length argv)%nat then
    arg <- lift_res (py_getitem argv 1) ;;
    if String.eqb arg "all" then
      run_all_tasks catalog false
    else if str_isdigit arg then
      (task_idx <- lift_res (int_of_digits arg) ;;
       run_single_task catalog task_idx false)
    else
      (print "Usage:" ;;
       print "  python run_tasks.py          # Show help" ;;
       print "  python run_tasks.py all      # Run all tasks" ;;
       print "  python run_tasks.py 0        # Run specific task by index")
  else
    (print (NL +:+ "🤖 Agent B Task Runner") ;;
     print (NL +:+ "Available tasks:") ;;
     for_enumerate catalog 0 (fun i task => print (listing_line i task)) ;;
     print (NL +:+ "Usage:") ;;
     print "  python run_tasks.py all      # Run all tasks" ;;
     print "  python run_tasks.py 0        # Run specific task" ;;
     print "").

End Main.

(** ** What one iteration prints *)

(** The lines of the iteration for job [t], announced as number [i] of [n],
    when the agent's answer is [r]. *)
Definition lines_of (n i : nat) (t : Task) (r : Res string) : list string :=
  [ NL +:+ banner;
    "TASK " +:+ pretty i +:+ "/" +:+ pretty n +:+ ": " +:+ app t;
    banner;
    "Description: " +:+ description t;
    "URL: " +:+ url t;
    "Expected states: " +:+ pretty (length (expected_states t));
    "" ]
  ++ match r with
     | Ret _ => [ NL +:+ "✅ Task " +:+ pretty i +:+ " completed successfully!" ]
     | Raise e =>
         if isinstance_Exception e
         then [ NL +:+ "❌ Task " +:+ pretty i +:+ " failed: " +:+ str_exn e ]
         else []
     end.

Fixpoint loop_lines (n i : nat) (jobs : list Task) (ans : list (Res string))
    : list string :=
  match jobs, ans with
  | t :: ts, r :: rs => lines_of n i t r ++ loop_lines n (S i) ts rs
  | _, _ => []
  end.

(** ** An agent that records the calls it receives

    Any agent can be wrapped so that it keeps, in its own state, the list
    of the calls made on it, with their arguments; its answers are those of
    the agent inside. *)
Record Recording (A : Type) : Type := mkRecording {
  inner : A;
  received : list Event
}.
Arguments mkRecording {A} _ _.
Arguments inner {A} _.
Arguments received {A} _.

#[export] Instance Recording_AgentB {A : Type} `{AgentB A}
    : AgentB (Recording A) := {
  initialize_browser headless c :=
    (fst (initialize_browser headless (inner c)),
     mkRecording (snd (initialize_browser headless (inner c)))
                 (received c ++ [EInit headless]));
  execute_task d u m c :=
    (fst (execute_task d u m (inner c)),
     mkRecording (snd (execute_task d u m (inner c)))
                 (received c ++ [EExec d u m]));
  close_browser c :=
    (fst (close_browser (inner c)),
     mkRecording (snd (close_browser (inner c)))
                 (received c ++ [EClose]))
}.

(** The wrapped agent, with nothing received yet. *)
Definition recording {A : Type} (a : A) : Recording A := mkRecording a [].

(** The calls of a trace that are made on the agent. *)
Definition is_agent_call (ev : Event) : bool :=
  is_init ev || is_exec ev || is_close ev.

(** A plain world and the world of the recording agent that go together. *)
Definition recorded {A : Type} (w : World A) (wr : World (Recording A)) : Prop :=
  agent w = inner (agent wr) /\
  results w = results wr /\
  trace w = trace wr /\
  received (agent wr) = List.filter is_agent_call (trace wr).

(** An agent whose session does not start and whose close fails. *)
Definition fake_no_session_close_fails : Fake :=
  mkFake (Raise (Exception "no browser")) []
         (Raise (Exception "session was never started")) 0 0 0.

(** ** Comparing catalogs and worlds *)

(** Two jobs that differ at most in their expected states. *)
Definition same_job (t1 t2 : Task) : Prop :=
  app t1 = app t2 /\ description t1 = description t2 /\ url t1 = url t2.

(** Two worlds that differ at most in what has been printed. *)
Definition same_effects {A : Type} (w1 w2 : World A) : Prop :=
  agent w1 = agent w2 /\ results w1 = results w2 /\ trace w1 = trace w2.

(** The [execute_task] call of a job. *)
Definition call_of (t : Task) : Event := EExec (description t) (url t) 15.

(** More sample data: an agent that is interrupted on its second job, and
    one whose close fails. *)
Definition fake_interrupted : Fake :=
  fake [Ret "captured_states/do_A/manifest.json";
        Raise (BaseException "KeyboardInterrupt");
        Ret "captured_states/do_A/manifest.json"].
Definition fake_interrupted_started : Fake :=
  mkFake (Ret tt)
         [Ret "captured_states/do_A/manifest.json";
          Raise (BaseException "KeyboardInterrupt");
          Ret "captured_states/do_A/manifest.json"]
         (Ret tt) 1 0 0.

Definition fake_close_fails : Fake :=
  mkFake (Ret tt) [] (Raise (Exception "browser gone")) 0 0 0.
Definition fake_close_fails_started : Fake :=
  mkFake (Ret tt) [] (Raise (Exception "browser gone")) 1 0 0.

Definition fake_interrupted_stopped : Fake :=
  mkFake (Ret tt) [Ret "captured_states/do_A/manifest.json"] (Ret tt) 1 2 0.
Definition fake_close_fails_closed : Fake :=
  mkFake (Ret tt) [] (Raise (Exception "browser gone")) 1 2 1.

(** Job A with other expected states. *)
Definition jobA' : Task := mkTask "AppA" "do A" "https://a.example/" [].

Definition successA : Outcome :=
  mkOutcome "do A" "AppA" "success"
            (Some "captured_states/do_A/manifest.json") None.

(** * Facts about the embedding *)

(** ** The loop *)

Section Loop.
Context {A : Type} {HA : AgentB A}.

(** One iteration, by the agent's answer. *)
Lemma run_one_spec n i t (w : World A) :
  exists out,
    run_one n i t w =
    let (r, a') := execute_task (description t) (url t) 15 (agent w) in
    (match r with
     | Ret _ => Ret tt
     | Raise e => if isinstance_Exception e then Ret tt else Raise e
     end,
     mkWorld a'
             (results w ++ (if catchable r then [outcome_of t r] else []))
             (trace w ++ events_of t r)
             (stdout w ++ out)).
Proof.
  unfold run_one, try_except_Exception, agent_execute_task, call_agent,
    results_append, asyncio_sleep, emit, print, bind; simpl.
  destruct (execute_task (description t) (url t) 15 (agent w)) as [[p|e] a'];
    simpl.
  - rewrite <- !app_assoc. simpl. eexists. reflexivity.
  - destruct (isinstance_Exception e); simpl;
      rewrite <- !app_assoc; simpl; [|rewrite app_nil_r];
      eexists; reflexivity.
Qed.

Lemma outcome_of_invariant t r : outcome_invariant (outcome_of t r).
Proof.
  destruct r as [p|e]; unfold outcome_invariant; simpl;
    repeat split; intros; try done; try (by eexists);
    try (by match goal with Hs : is_Some None |- _ => destruct Hs end);
    first [ left; split; [by eexists | done]
          | right; split; [done | by eexists] ].
Qed.

Lemma events_of_loop_event t ts r :
  Forall (loop_event (t :: ts)) (events_of t r).
Proof.
  unfold events_of. constructor.
  - right. exists t. split; [constructor | reflexivity].
  - destruct (returns r); repeat constructor.
Qed.

Lemma loop_event_cons t ts ev : loop_event ts ev -> loop_event (t :: ts) ev.
Proof.
  intros [-> | (t' & Hin & ->)]; [by left | right].
  exists t'. split; [by constructor | reflexivity].
Qed.

Lemma for_enumerate_cons {T : Type} (x : T) xs i (body : nat -> T -> M A unit) w :
  for_enumerate (x :: xs) i body w =
  match body i x w with
  | (Ret _, w1) => for_enumerate xs (S i) body w1
  | (Raise e, w1) => (Raise e, w1)
  end.
Proof. reflexivity. Qed.

(** What holds of the loop whatever the agent does: it only appends to
    [results] and to the trace, every record it appends satisfies the
    invariant, and every call it makes is an [execute_task] of a job with
    step bound 15 or the sleep of 3. *)
Lemma loop_general jobs : forall i n (w : World A),
  exists (new : list Outcome) (mid : list Event),
    results (snd (for_enumerate jobs i (run_one n) w)) = results w ++ new /\
    trace (snd (for_enumerate jobs i (run_one n) w)) = trace w ++ mid /\
    Forall outcome_invariant new /\
    Forall (loop_event jobs) mid /\
    length new <= length jobs.
Proof.
  induction jobs as [|t ts IH]; intros i n w.
  - exists [], []. simpl. rewrite !app_nil_r. repeat split; auto.
  - rewrite for_enumerate_cons.
    destruct (run_one_spec n i t w) as [out ->].
    destruct (execute_task (description t) (url t) 15 (agent w)) as [r a'].
    set (w1 := mkWorld a' _ _ _).
    destruct (catchable r) eqn:Ec.
    + assert (Hres : (match r with
                      | Ret _ => Ret tt
                      | Raise e => if isinstance_Exception e then Ret tt else Raise e
                      end) = Ret tt).
      { destruct r as [p|e]; [done|]. simpl in Ec. by rewrite Ec. }
      rewrite Hres.
      destruct (IH (S i) n w1) as (new & mid & Hr & Ht & Hn & Hm & Hl).
      rewrite Hr, Ht. subst w1. cbn [results trace].
      exists (outcome_of t r :: new), (events_of t r ++ mid).
      rewrite <- !app_assoc.
      split; [reflexivity|]. split; [reflexivity|].
      split; [constructor; [apply outcome_of_invariant | exact Hn]|].
      split; [|simpl; lia].
      apply Forall_app. split; [apply events_of_loop_event|].
      eapply Forall_impl; [exact Hm | apply loop_event_cons].
    + destruct r as [p|e]; [discriminate|]. simpl in Ec. rewrite Ec.
      subst w1. simpl.
      exists [], (events_of t (Raise e)). rewrite app_nil_r.
      split; [reflexivity|]. split; [reflexivity|].
      split; [constructor|]. split; [apply events_of_loop_event | simpl; lia].
Qed.

(** What the loop does when every answer is a return or an [Exception]:
    it runs to its end, with one record and one call per job. *)
Lemma loop_catchable jobs : forall i n (w : World A),
  forallb catchable (answers jobs (agent w)) = true ->
  exists out,
    for_enumerate jobs i (run_one n) w =
    (Ret tt,
     mkWorld (agent_after jobs (agent w))
             (results w ++ zip_with outcome_of jobs (answers jobs (agent w)))
             (trace w ++ mjoin (zip_with events_of jobs (answers jobs (agent w))))
             (stdout w ++ out)).
Proof.
  induction jobs as [|t ts IH]; intros i n w Hc.
  - exists []. simpl. rewrite !app_nil_r. by destruct w.
  - rewrite for_enumerate_cons. simpl in Hc |- *.
    destruct (run_one_spec n i t w) as [out1 ->].
    destruct (execute_task (description t) (url t) 15 (agent w)) as [r a'].
    simpl in Hc. apply andb_prop in Hc as [Hr Hc].
    set (w1 := mkWorld a' _ _ _).
    destruct (IH (S i) n w1 Hc) as [out2 IH'].
    assert (Hres : (match r with
                    | Ret _ => Ret tt
                    | Raise e => if isinstance_Exception e then Ret tt else Raise e
                    end) = Ret tt).
    { destruct r as [p|e]; [done|]. simpl in Hr. by rewrite Hr. }
    rewrite Hres, IH'. subst w1. simpl. rewrite Hr. simpl.
    exists (out1 ++ out2). rewrite <- !app_assoc. reflexivity.
Qed.

End Loop.

(** ** Counting calls *)

Lemma count_app p (l1 l2 : list Event) :
  count p (l1 ++ l2) = count p l1 + count p l2.
Proof. unfold count. by rewrite List.filter_app, length_app. Qed.

Lemma count_none p (l : list Event) :
  Forall (fun ev => p ev = false) l -> count p l = 0.
Proof.
  unfold count. induction 1 as [|ev l Hev _ IH]; simpl; [done|].
  by rewrite Hev.
Qed.

Lemma loop_event_kind jobs ev :
  loop_event jobs ev ->
  is_init ev = false /\ is_close ev = false /\ is_dump ev = false.
Proof. by intros [-> | (t & _ & ->)]. Qed.

Lemma loop_event_max_steps jobs ev d u m :
  loop_event jobs ev -> ev = EExec d u m -> m = 15%Z.
Proof. intros [-> | (t & _ & ->)] E; [discriminate | by injection E]. Qed.

(** ** The replay *)

Section ReplayFacts.
Context {A : Type} {HA : AgentB A}.

Lemma length_answers jobs : forall a : A, length (answers jobs a) = length jobs.
Proof.
  induction jobs as [|t ts IH]; intros a; simpl; [done|].
  destruct (execute_task (description t) (url t) 15 a) as [r a'].
  simpl. by rewrite IH.
Qed.

Lemma exec_calls_of_loop jobs : forall ans : list (Res string),
  length ans = length jobs ->
  exec_calls_in (mjoin (zip_with events_of jobs ans)) =
  (fun t => EExec (description t) (url t) 15) <$> jobs.
Proof.
  unfold exec_calls_in.
  induction jobs as [|t ts IH]; intros [|r ans] Hl; simpl in *; try done.
  f_equal. destruct (returns r); simpl; apply IH; lia.
Qed.

Lemma outcomes_tasks jobs : forall ans : list (Res string),
  length ans = length jobs ->
  r_task <$> zip_with outcome_of jobs ans = description <$> jobs /\
  r_app <$> zip_with outcome_of jobs ans = app <$> jobs.
Proof.
  induction jobs as [|t ts IH]; intros [|r ans] Hl; try done.
  simpl in Hl. destruct (IH ans ltac:(lia)) as [H1 H2].
  cbn [zip_with]. rewrite !fmap_cons, H1, H2. by destruct r.
Qed.

End ReplayFacts.

(** ** The whole of run_all_tasks *)

Section Batch.
Context {A : Type} {HA : AgentB A}.

Lemma run_all_tasks_eq catalog headless (w : World A) :
  run_all_tasks catalog headless w =
  let (ri, ai) := initialize_browser headless (agent w) in
  let wi := mkWorld ai [] (trace w ++ [EInit headless])
                    (stdout w ++ preamble (length catalog)) in
  match ri with
  | Raise e => after_close (Raise e) wi
  | Ret _ =>
      let (rl, wl) := for_enumerate catalog 1 (run_one (length catalog)) wi in
      after_close rl wl
  end.
Proof.
  unfold run_all_tasks, after_close, try_finally, generate_summary_report,
    agent_initialize_browser, agent_close_browser, call_agent, get_results,
    results_new, emit, print, bind; simpl.
  destruct (initialize_browser headless (agent w)) as [[u|e] ai]; simpl;
    rewrite <- !app_assoc; simpl.
  - destruct (for_enumerate _ _ _ _) as [rl wl]; simpl.
    destruct (close_browser (agent wl)) as [[uc|ec] ac]; simpl;
      destruct rl as [ul|el]; simpl; rewrite <- ?app_assoc; reflexivity.
  - destruct (close_browser ai) as [[uc|ec] ac]; reflexivity.
Qed.

Lemma after_close_results rl (wl : World A) :
  results (snd (after_close rl wl)) = results wl.
Proof.
  unfold after_close.
  by destruct (close_browser (agent wl)) as [[uc|ec] ac], rl.
Qed.

Lemma after_close_trace rl (wl : World A) :
  exists tail,
    trace (snd (after_close rl wl)) = trace wl ++ EClose :: tail /\
    (tail = [] \/ tail = [EDump (make_report (results wl))]).
Proof.
  unfold after_close.
  destruct (close_browser (agent wl)) as [[uc|ec] ac], rl; simpl;
    eexists; (split; [reflexivity|]); auto.
Qed.

Lemma dump_tail (tail : list Event) report :
  tail = [] \/ tail = [EDump report] ->
  Forall (fun ev => is_dump ev = true) tail.
Proof. intros [-> | ->]; repeat constructor. Qed.

Lemma after_close_result (wl : World A) :
  fst (after_close (Ret tt) wl) = fst (close_browser (agent wl)).
Proof.
  unfold after_close.
  by destruct (close_browser (agent wl)) as [[[]|ec] ac].
Qed.

(** The shape of every run: the session is opened first, then come the
    calls of the loop, then the close, then at most the dump of the report
    on [results]. *)
Lemma run_all_tasks_shape catalog headless (a0 : A) :
  exists mid tail,
    trace (snd (run_all_tasks catalog headless (init_world a0))) =
      EInit headless :: mid ++ EClose :: tail /\
    Forall (loop_event catalog) mid /\
    Forall (fun ev => is_dump ev = true) tail /\
    Forall outcome_invariant
      (results (snd (run_all_tasks catalog headless (init_world a0)))) /\
    length (results (snd (run_all_tasks catalog headless (init_world a0))))
      <= length catalog /\
    (tail = [] \/
     tail = [EDump (make_report
               (results (snd (run_all_tasks catalog headless (init_world a0)))))]).
Proof.
  rewrite run_all_tasks_eq. simpl.
  destruct (initialize_browser headless a0) as [[u|e] ai].
  - set (wi := mkWorld ai _ _ _).
    destruct (loop_general catalog 1 (length catalog) wi)
      as (new & mid & Hr & Ht & Hn & Hm & Hl).
    destruct (for_enumerate _ _ _ wi) as [rl wl]. simpl in Hr, Ht.
    destruct (after_close_trace rl wl) as (tail & Hc & Hd).
    exists mid, tail. rewrite Hc, Ht, after_close_results.
    pose proof (dump_tail _ _ Hd). rewrite Hr in *.
    repeat split; auto.
  - set (wi := mkWorld ai _ _ _).
    destruct (after_close_trace (Raise e) wi) as (tail & Hc & Hd).
    exists [], tail. rewrite Hc, after_close_results.
    pose proof (dump_tail _ _ Hd).
    repeat split; auto. simpl. lia.
Qed.

(** The run when the session starts and every answer is a return or an
    [Exception]. *)
Lemma run_all_tasks_catchable catalog headless (a0 a1 : A) :
  initialize_browser headless a0 = (Ret tt, a1) ->
  forallb catchable (answers catalog a1) = true ->
  exists out,
    run_all_tasks catalog headless (init_world a0) =
    after_close (Ret tt)
      (mkWorld (agent_after catalog a1)
               (zip_with outcome_of catalog (answers catalog a1))
               (EInit headless
                  :: mjoin (zip_with events_of catalog (answers catalog a1)))
               out).
Proof.
  intros Hi Hc. rewrite run_all_tasks_eq. simpl. rewrite Hi.
  set (wi := mkWorld a1 _ _ _).
  destruct (loop_catchable catalog 1 (length catalog) wi Hc) as [out ->].
  eexists. reflexivity.
Qed.

End Batch.

(** ** The agent that records its calls *)

Section RecordingFacts.
Context {A : Type} {HA : AgentB A}.

Lemma agent_calls_events_of t r :
  List.filter is_agent_call (events_of t r) = [EExec (description t) (url t) 15].
Proof. by destruct r. Qed.

Lemma run_one_recorded n i t (w : World A) (wr : World (Recording A)) :
  recorded w wr ->
  fst (run_one n i t w) = fst (run_one n i t wr) /\
  recorded (snd (run_one n i t w)) (snd (run_one n i t wr)).
Proof.
  intros (Ha & Hr & Ht & Hrec).
  destruct (run_one_spec n i t w) as [out ->].
  destruct (run_one_spec n i t wr) as [outr ->].
  cbn [execute_task Recording_AgentB]. rewrite Ha, Hr, Ht.
  destruct (execute_task (description t) (url t) 15 (inner (agent wr)))
    as [r a'].
  cbn [fst snd]. split; [reflexivity|].
  unfold recorded. cbn [agent results trace inner received].
  repeat split; try reflexivity.
  by rewrite List.filter_app, agent_calls_events_of, Hrec.
Qed.

Lemma loop_recorded jobs : forall i n (w : World A) (wr : World (Recording A)),
  recorded w wr ->
  fst (for_enumerate jobs i (run_one n) w)
    = fst (for_enumerate jobs i (run_one n) wr) /\
  recorded (snd (for_enumerate jobs i (run_one n) w))
           (snd (for_enumerate jobs i (run_one n) wr)).
Proof.
  induction jobs as [|t ts IH]; intros i n w wr Hw; [done|].
  rewrite !for_enumerate_cons.
  destruct (run_one_recorded n i t w wr Hw) as [Hf Hs].
  destruct (run_one n i t w) as [r1 w1].
  destruct (run_one n i t wr) as [r2 w2].
  simpl in Hf, Hs. subst r2. destruct r1 as [u|e]; [|done].
  by apply IH.
Qed.

Lemma after_close_recorded rl (w : World A) (wr : World (Recording A)) :
  recorded w wr ->
  fst (after_close rl w) = fst (after_close rl wr) /\
  recorded (snd (after_close rl w)) (snd (after_close rl wr)).
Proof.
  intros (Ha & Hr & Ht & Hrec). unfold after_close.
  cbn [close_browser Recording_AgentB]. rewrite Ha, Hr, Ht.
  destruct (close_browser (inner (agent wr))) as [[uc|ec] ac], rl;
    cbn [fst snd]; (split; [reflexivity|]); unfold recorded;
    cbn [agent results trace inner received];
    repeat split; try reflexivity;
    by rewrite List.filter_app, Hrec.
Qed.

Lemma run_all_tasks_recorded catalog headless (a0 : A) :
  fst (run_all_tasks catalog headless (init_world a0))
    = fst (run_all_tasks catalog headless (init_world (recording a0))) /\
  recorded (snd (run_all_tasks catalog headless (init_world a0)))
           (snd (run_all_tasks catalog headless (init_world (recording a0)))).
Proof.
  rewrite !run_all_tasks_eq.
  cbn [init_world recording agent trace stdout initialize_browser
       Recording_AgentB inner received].
  destruct (initialize_browser headless a0) as [ri ai]. cbn [fst snd].
  set (wi := mkWorld ai _ _ _). set (wri := mkWorld (mkRecording ai _) _ _ _).
  assert (Hi : recorded wi wri) by done.
  destruct ri as [u|e].
  - destruct (loop_recorded catalog 1 (length catalog) wi wri Hi) as [Hf Hs].
    destruct (for_enumerate catalog 1 (run_one (length catalog)) wi)
      as [r1 w1].
    destruct (for_enumerate catalog 1 (run_one (length catalog)) wri)
      as [r2 w2].
    simpl in Hf, Hs. subst r2. by apply after_close_recorded.
  - by apply after_close_recorded.
Qed.

(** The calls on the agent among the calls of one session. *)
Lemma agent_calls_of_session jobs h (mid tail : list Event) :
  Forall (loop_event jobs) mid ->
  Forall (fun ev => is_dump ev = true) tail ->
  List.filter is_agent_call (EInit h :: mid ++ EClose :: tail)
    = EInit h :: List.filter is_agent_call mid ++ [EClose] /\
  Forall (fun ev => is_exec ev = true) (List.filter is_agent_call mid).
Proof.
  intros Hm Hd. split.
  - assert (Htail : List.filter is_agent_call tail = []).
    { clear -Hd. induction Hd as [|ev l Hev _ IH]; [done|].
      simpl. rewrite IH. by destruct ev. }
    change (EInit h :: mid ++ EClose :: tail)
      with ([EInit h] ++ mid ++ [EClose] ++ tail).
    rewrite !List.filter_app, Htail. cbn. reflexivity.
  - clear -Hm. induction Hm as [|ev l Hev _ IH]; [constructor|].
    destruct Hev as [-> | (t & _ & ->)]; simpl; [exact IH|].
    by constructor.
Qed.

End RecordingFacts.

(** * The batch runner *)

Section BatchClaims.
Context {A : Type} {HA : AgentB A}.

Lemma exec_calls_of_run (wl : World A) (calls : list Event) :
  trace wl = EInit false :: calls \/ trace wl = EInit true :: calls ->
  exec_calls_in (trace (snd (after_close (Ret tt) wl))) = exec_calls_in calls.
Proof.
  intros Ht. destruct (after_close_trace (Ret tt) wl) as (tail & -> & Hd).
  assert (Htail : exec_calls_in tail = []) by (by destruct Hd as [-> | ->]).
  unfold exec_calls_in in *.
  destruct Ht as [-> | ->]; simpl; rewrite List.filter_app; simpl;
    by rewrite Htail, app_nil_r.
Qed.

(** C1.  When the session starts and every answer of the agent is a
    return or an [Exception], the run leaves in [results] one record per
    job of the catalog, in catalog order: the list is as long as the
    catalog, its "task" and "app" entries are the descriptions and the
    applications of the jobs in the same order, and the record at each
    position is the one built from that job and the agent's answer to
    it. *)
Theorem run_all_tasks_one_outcome_per_job catalog headless (a0 a1 : A) :
  initialize_browser headless a0 = (Ret tt, a1) ->
  forallb catchable (answers catalog a1) = true ->
  let rs := results (snd (run_all_tasks catalog headless (init_world a0))) in
  length rs = length catalog /\
  r_task <$> rs = description <$> catalog /\
  r_app <$> rs = app <$> catalog /\
  rs = zip_with outcome_of catalog (answers catalog a1).
Proof.
  intros Hi Hc rs. subst rs.
  destruct (run_all_tasks_catchable catalog headless a0 a1 Hi Hc) as [out ->].
  rewrite after_close_results. cbn [results].
  pose proof (length_answers catalog a1) as Hl.
  destruct (outcomes_tasks catalog (answers catalog a1) Hl) as [Ht Ha].
  repeat split; auto.
  rewrite length_zip_with. lia.
Qed.

(** C2.  When the session starts and every failure of the agent is an
    [Exception]: if the agent fails on job [k], the only thing the run can
    still raise is what [close_browser] raises, the record at position [k]
    is the failed record of job [k] with the text of the failure,
    [execute_task] is called for every job of the catalog in order, and
    every later job has its record at its own position. *)
Theorem run_all_tasks_failure_isolation catalog headless (a0 a1 : A)
    (k : nat) (task : Task) (e : PyExn) :
  initialize_browser headless a0 = (Ret tt, a1) ->
  forallb catchable (answers catalog a1) = true ->
  catalog !! k = Some task ->
  answers catalog a1 !! k = Some (Raise e) ->
  let run := run_all_tasks catalog headless (init_world a0) in
  fst run = fst (close_browser (agent_after catalog a1)) /\
  results (snd run) !! k =
    Some (mkOutcome (description task) (app task) "failed"
                    None (Some (str_exn e))) /\
  exec_calls_in (trace (snd run)) =
    (fun t => EExec (description t) (url t) 15) <$> catalog /\
  forall j task_j,
    k < j -> catalog !! j = Some task_j ->
    exists answer_j,
      answers catalog a1 !! j = Some answer_j /\
      results (snd run) !! j = Some (outcome_of task_j answer_j).
Proof.
  intros Hi Hc Hk He run. subst run.
  destruct (run_all_tasks_catchable catalog headless a0 a1 Hi Hc) as [out ->].
  pose proof (length_answers catalog a1) as Hl.
  rewrite after_close_result, after_close_results. cbn [agent results].
  split; [reflexivity|]. split; [|split].
  - rewrite lookup_zip_with, Hk. simpl. by rewrite He.
  - erewrite exec_calls_of_run.
    + by apply exec_calls_of_loop.
    + cbn [trace]. destruct headless; [right | left]; reflexivity.
  - intros j task_j _ Hj.
    destruct (lookup_lt_is_Some_2 (answers catalog a1) j) as [answer_j Ha].
    { rewrite Hl. by eapply lookup_lt_Some. }
    exists answer_j. split; [exact Ha|].
    rewrite lookup_zip_with, Hj. simpl. by rewrite Ha.
Qed.

(** C3.  In every run, whatever the agent does, [initialize_browser] is
    called exactly once and [close_browser] exactly once; the
    initialisation is the first call, only [execute_task] calls and sleeps
    lie between it and the close, and after the close comes at most the
    dump of the report.  These calls reach the agent: run against the same
    agent wrapped so that it records what it receives, the run leaves the
    agent inside in the same state, and what the agent has received is the
    calls of the trace that are made on it, in that order: one
    initialisation, first, then [execute_task] calls only, then one close,
    last. *)
Theorem run_all_tasks_session_once catalog headless (a0 : A) :
  let tr := trace (snd (run_all_tasks catalog headless (init_world a0))) in
  let c := agent (snd (run_all_tasks catalog headless
                         (init_world (recording a0)))) in
  count is_init tr = 1 /\
  count is_close tr = 1 /\
  (exists mid tail,
     tr = EInit headless :: mid ++ EClose :: tail /\
     Forall (fun ev => is_exec ev || is_sleep ev = true) mid /\
     Forall (fun ev => is_dump ev = true) tail) /\
  inner c = agent (snd (run_all_tasks catalog headless (init_world a0))) /\
  received c = List.filter is_agent_call tr /\
  count is_init (received c) = 1 /\
  count is_close (received c) = 1 /\
  exists execs,
    received c = EInit headless :: execs ++ [EClose] /\
    Forall (fun ev => is_exec ev = true) execs.
Proof.
  intros tr c. subst tr c.
  destruct (run_all_tasks_recorded catalog headless a0)
    as (_ & Ha & _ & Ht & Hrec).
  rewrite <- Ht in Hrec. rewrite Hrec. clear Ht Hrec.
  destruct (run_all_tasks_shape catalog headless a0)
    as (mid & tail & -> & Hm & Hd & _ & _).
  assert (Hmi : Forall (fun ev => is_init ev = false) mid)
    by (eapply Forall_impl; [exact Hm | intros ev Hev;
        by destruct (loop_event_kind _ _ Hev) as (? & ? & ?)]).
  assert (Hmc : Forall (fun ev => is_close ev = false) mid)
    by (eapply Forall_impl; [exact Hm | intros ev Hev;
        by destruct (loop_event_kind _ _ Hev) as (? & ? & ?)]).
  assert (Hti : Forall (fun ev => is_init ev = false) tail)
    by (eapply Forall_impl; [exact Hd | by intros []]).
  assert (Htc : Forall (fun ev => is_close ev = false) tail)
    by (eapply Forall_impl; [exact Hd | by intros []]).
  destruct (agent_calls_of_session catalog headless mid tail Hm Hd)
    as [Hcalls Hexecs].
  assert (Hei : Forall (fun ev => is_init ev = false)
                       (List.filter is_agent_call mid))
    by (eapply Forall_impl; [exact Hexecs | by intros []]).
  assert (Hec : Forall (fun ev => is_close ev = false)
                       (List.filter is_agent_call mid))
    by (eapply Forall_impl; [exact Hexecs | by intros []]).
  split; [|split; [|split; [|split; [|split; [|split; [|split]]]]]].
  - change (EInit headless :: mid ++ EClose :: tail)
      with ([EInit headless] ++ mid ++ [EClose] ++ tail).
    rewrite !count_app, (count_none _ mid Hmi), (count_none _ tail Hti).
    reflexivity.
  - change (EInit headless :: mid ++ EClose :: tail)
      with ([EInit headless] ++ mid ++ [EClose] ++ tail).
    rewrite !count_app, (count_none _ mid Hmc), (count_none _ tail Htc).
    reflexivity.
  - exists mid, tail. split; [reflexivity|]. split; [|exact Hd].
    eapply Forall_impl; [exact Hm|].
    by intros ev [-> | (t & _ & ->)].
  - by rewrite Ha.
  - reflexivity.
  - rewrite Hcalls.
    change (EInit headless :: ?l ++ [EClose])
      with ([EInit headless] ++ l ++ [EClose]).
    by rewrite !count_app, (count_none _ _ Hei).
  - rewrite Hcalls.
    change (EInit headless :: ?l ++ [EClose])
      with ([EInit headless] ++ l ++ [EClose]).
    by rewrite !count_app, (count_none _ _ Hec).
  - exists (List.filter is_agent_call mid). by split.
Qed.

(** C4.  In every run, whatever the agent does, every record of [results]
    has exactly one of "manifest" and "error": "manifest" if and only if
    the status is "success", "error" if and only if the status is
    "failed". *)
Theorem run_all_tasks_outcome_invariant catalog headless (a0 : A) :
  Forall outcome_invariant
    (results (snd (run_all_tasks catalog headless (init_world a0)))).
Proof.
  by destruct (run_all_tasks_shape catalog headless a0)
    as (mid & tail & _ & _ & _ & Hinv & _).
Qed.

(** C9, as the code has it.  When the session starts and every answer of
    the agent is a return or an [Exception], the [execute_task] calls of
    the run are, job by job in catalog order, the call with the job's
    description, the job's url and the step bound 15; and in every run,
    whatever the agent does, every [execute_task] call has the step
    bound 15. *)
Theorem run_all_tasks_step_bound_15 catalog headless (a0 a1 : A) :
  initialize_browser headless a0 = (Ret tt, a1) ->
  forallb catchable (answers catalog a1) = true ->
  let tr := trace (snd (run_all_tasks catalog headless (init_world a0))) in
  exec_calls_in tr = (fun t => EExec (description t) (url t) 15) <$> catalog /\
  forall d u m, EExec d u m ∈ tr -> m = 15%Z.
Proof.
  intros Hi Hc tr. subst tr. split.
  - destruct (run_all_tasks_catchable catalog headless a0 a1 Hi Hc) as [out ->].
    erewrite exec_calls_of_run.
    + apply exec_calls_of_loop, length_answers.
    + cbn [trace]. destruct headless; [right | left]; reflexivity.
  - destruct (run_all_tasks_shape catalog headless a0)
      as (mid & tail & -> & Hm & Hd & _ & _).
    intros d u m Hin.
    apply elem_of_cons in Hin as [Hin | Hin]; [discriminate|].
    apply elem_of_app in Hin as [Hin | Hin].
    + rewrite Forall_forall in Hm.
      eapply loop_event_max_steps; [apply Hm, Hin | reflexivity].
    + apply elem_of_cons in Hin as [Hin | Hin]; [discriminate|].
      rewrite Forall_forall in Hd. by apply Hd in Hin.
Qed.

(** C10, as the code has it.  If [initialize_browser] raises, the run
    calls [close_browser] once, on the state the failed initialisation
    left, and makes no other call: no job is attempted, no record is made
    and no report is dumped.
    The run then raises the initialisation error, unless the close itself
    raises, in which case it raises that. *)
Theorem run_all_tasks_init_failure catalog headless (a0 a1 : A) (e : PyExn) :
  initialize_browser headless a0 = (Raise e, a1) ->
  let run := run_all_tasks catalog headless (init_world a0) in
  trace (snd run) = [EInit headless; EClose] /\
  count is_close (trace (snd run)) = 1 /\
  count is_exec (trace (snd run)) = 0 /\
  count is_dump (trace (snd run)) = 0 /\
  results (snd run) = [] /\
  agent (snd run) = snd (close_browser a1) /\
  fst run = match fst (close_browser a1) with
            | Ret _ => Raise e
            | Raise e' => Raise e'
            end.
Proof.
  intros Hi run. subst run. rewrite run_all_tasks_eq. simpl. rewrite Hi.
  unfold after_close. simpl.
  by destruct (close_browser a1) as [[uc|ec] ac].
Qed.

End BatchClaims.

(** C6, at the scenario "JobA fails, JobB succeeds".  The call for job B
    follows the call for job A with no sleep between them: the sleep of 3
    comes only after the job that succeeded. *)
Example run_all_tasks_no_pause_after_failure :
  trace (snd (run_all_tasks [jobA; jobB] false (init_world fake_AB))) =
  [ EInit false;
    EExec "do A" "https://a.example/" 15;
    EExec "do B" "https://b.example/" 15;
    ESleep 3;
    EClose;
    EDump (make_report [failedA; successB]) ].
Proof. vm_compute. reflexivity. Qed.

(** * The report *)

Section ReportClaims.
Context {A : Type}.

Lemma foldl_add_ones s rs : forall acc,
  foldl Nat.add acc (ones_with_status s rs) =
  acc + length (List.filter (fun r => String.eqb (r_status r) s) rs).
Proof.
  unfold ones_with_status.
  induction rs as [|r rs IH]; intros acc; simpl; [lia|].
  destruct (String.eqb (r_status r) s); simpl; rewrite IH; lia.
Qed.

Lemma py_sum_ones s rs :
  py_sum (ones_with_status s rs) =
  length (List.filter (fun r => String.eqb (r_status r) s) rs).
Proof. unfold py_sum. by rewrite foldl_add_ones. Qed.

Lemma not_success_is_failed r :
  valid_status r = true -> negb (is_success r) = is_failed r.
Proof.
  unfold valid_status, is_success, is_failed.
  destruct (String.eqb (r_status r) "success") eqn:Es; simpl; [|done].
  intros _. apply String.eqb_eq in Es. by rewrite Es.
Qed.

Lemma make_report_counts rs :
  forallb valid_status rs = true ->
  List.filter (fun r => negb (is_success r)) rs = List.filter is_failed rs /\
  successful_tasks (make_report rs) + failed_tasks (make_report rs)
    = total_tasks (make_report rs).
Proof.
  intros Hv.
  assert (Hf : List.filter (fun r => negb (is_success r)) rs
               = List.filter is_failed rs).
  { apply List.filter_ext_in. intros r Hr. apply not_success_is_failed.
    rewrite forallb_forall in Hv. by apply Hv. }
  split; [exact Hf|].
  cbn [successful_tasks failed_tasks total_tasks make_report].
  rewrite !py_sum_ones.
  change (length (List.filter is_success rs) + length (List.filter is_failed rs)
          = length rs).
  rewrite <- Hf. apply List.filter_length.
Qed.

(** A record that satisfies the invariant has one of the two statuses. *)
Lemma outcome_invariant_valid_status r :
  outcome_invariant r -> valid_status r = true.
Proof.
  intros (Hm & He & [[Hs _] | [_ Hs]]); unfold valid_status, is_success, is_failed.
  - apply Hm in Hs. by rewrite Hs.
  - apply He in Hs. by rewrite Hs.
Qed.

(** C5.  For every list of records whose statuses are "success" or
    "failed", [generate_summary_report] returns after dumping one report,
    and in that report: the total is the length of the list, the two
    counts are the sizes of the two parts of the list split by status and
    add up to the total, the applications are listed without repetition
    and are exactly the "app" entries of the records, and "tasks" is the
    list itself. *)
Theorem generate_summary_report_fields (rs : list Outcome) (w : World A) :
  forallb valid_status rs = true ->
  exists report,
    fst (generate_summary_report rs w) = Ret tt /\
    trace (snd (generate_summary_report rs w)) = trace w ++ [EDump report] /\
    total_tasks report = length rs /\
    successful_tasks report = length (fst (List.partition is_success rs)) /\
    failed_tasks report = length (snd (List.partition is_success rs)) /\
    successful_tasks report = length (List.filter is_success rs) /\
    failed_tasks report = length (List.filter is_failed rs) /\
    successful_tasks report + failed_tasks report = total_tasks report /\
    NoDup (apps_covered report) /\
    (forall a, a ∈ apps_covered report <-> exists r, r ∈ rs /\ r_app r = a) /\
    tasks report = rs.
Proof.
  intros Hv. exists (make_report rs).
  destruct (make_report_counts rs Hv) as [Hf Hsum].
  assert (Hs : successful_tasks (make_report rs)
               = length (List.filter is_success rs))
    by apply py_sum_ones.
  assert (Hd : failed_tasks (make_report rs)
               = length (List.filter is_failed rs))
    by apply py_sum_ones.
  rewrite List.partition_as_filter, Hf. cbn [fst snd].
  repeat split; try done.
  - cbn [apps_covered make_report]. apply NoDup_elements.
  - cbn [apps_covered make_report].
    rewrite elem_of_elements, elem_of_list_to_set, list_elem_of_fmap.
    intros (r & -> & Hr). by exists r.
  - cbn [apps_covered make_report].
    rewrite elem_of_elements, elem_of_list_to_set, list_elem_of_fmap.
    intros (r & Hr & <-). by exists r.
Qed.

End ReportClaims.

Section RunReport.
Context {A : Type} {HA : AgentB A}.

(** The report of a run: whatever the agent does, a report that the run
    dumps is the report on the final [results], and its counts add up. *)
Corollary run_all_tasks_report catalog headless (a0 : A) report :
  EDump report
    ∈ trace (snd (run_all_tasks catalog headless (init_world a0))) ->
  report
    = make_report (results (snd (run_all_tasks catalog headless (init_world a0))))
  /\ successful_tasks report + failed_tasks report = total_tasks report.
Proof.
  destruct (run_all_tasks_shape catalog headless a0)
    as (mid & tail & -> & Hm & _ & Hinv & _ & Htail).
  intros Hin.
  apply elem_of_cons in Hin as [Hin | Hin]; [discriminate|].
  apply elem_of_app in Hin as [Hin | Hin].
  { rewrite Forall_forall in Hm. apply Hm in Hin.
    by destruct (loop_event_kind _ _ Hin) as (_ & _ & ?). }
  apply elem_of_cons in Hin as [Hin | Hin]; [discriminate|].
  destruct Htail as [-> | ->]; [by apply elem_of_nil in Hin|].
  apply list_elem_of_singleton in Hin. injection Hin as ->.
  split; [reflexivity|].
  apply make_report_counts, forallb_forall. intros r Hr.
  apply outcome_invariant_valid_status.
  rewrite Forall_forall in Hinv. apply Hinv. by apply list_elem_of_In.
Qed.

End RunReport.

(** * Single-job mode *)

Section SingleClaims.
Context {A : Type} {HA : AgentB A}.

(** C7, as the code has it.  For every position inside the catalog,
    [run_single_task] opens the session once, calls [execute_task] for
    that job with step bound 15 if the session started, and closes the
    session once, on every path; the close is made on the state the last
    of these calls left, and its state is the final one.  It makes no
    record and dumps no report.  What it raises is, in this order of
    precedence, what the close raised, what the initialisation raised, what
    [execute_task] raised: a failure of the job is not absorbed, and it is
    what the caller gets unless the close raises as well. *)
Theorem run_single_task_in_range catalog (task_index : Z) headless
    (a0 : A) (task : Task) :
  (0 <= task_index < Z.of_nat (length catalog))%Z ->
  catalog !! Z.to_nat task_index = Some task ->
  let run := run_single_task catalog task_index headless (init_world a0) in
  let ri := initialize_browser headless a0 in
  let re := execute_task (description task) (url task) 15 (snd ri) in
  let rc := close_browser (if returns (fst ri) then snd re else snd ri) in
  trace (snd run) =
    EInit headless
      :: (if returns (fst ri)
          then [EExec (description task) (url task) 15] else [])
      ++ [EClose] /\
  count is_init (trace (snd run)) = 1 /\
  count is_close (trace (snd run)) = 1 /\
  count is_dump (trace (snd run)) = 0 /\
  results (snd run) = [] /\
  fst run =
    match fst rc, fst ri, fst re with
    | Raise e, _, _ => Raise e
    | Ret _, Raise e, _ => Raise e
    | Ret _, Ret _, Raise e => Raise e
    | Ret _, Ret _, Ret _ => Ret tt
    end /\
  agent (snd run) = snd rc.
Proof.
  intros [Hlo Hhi] Ht. cbv zeta.
  unfold run_single_task.
  destruct (task_index >=? Z.of_nat (length catalog))%Z eqn:Eg; [lia|].
  unfold lift_res, py_getitem, bind at 1.
  destruct (task_index <? 0)%Z eqn:En; [lia|].
  assert (Hb : ((0 <=? task_index)%Z
                && (task_index <? Z.of_nat (length catalog))%Z)%bool = true)
    by (apply andb_true_intro; split; lia).
  rewrite Hb, Ht.
  unfold try_finally, agent_initialize_browser, agent_execute_task,
    agent_close_browser, call_agent, emit, print, bind, init_world; simpl.
  destruct (initialize_browser headless a0) as [[ui|ei] ai]; simpl.
  - destruct (execute_task (description task) (url task) 15 ai)
      as [[p|ee] ae]; simpl;
      destruct (close_browser ae) as [[uc|ec] ac]; simpl; by repeat split.
  - destruct (close_browser ai) as [[uc|ec] ac]; simpl; by repeat split.
Qed.

(** C8.  For every index at or beyond the length of the catalog,
    [run_single_task] prints the line that reports the invalid index and
    returns: it makes no call at all, so no session is initialised and no
    task is executed, and the agent is left as it was. *)
Theorem run_single_task_out_of_range catalog (task_index : Z) headless
    (a0 : A) :
  (task_index >= Z.of_nat (length catalog))%Z ->
  let run := run_single_task catalog task_index headless (init_world a0) in
  run = (Ret tt, mkWorld a0 [] [] [invalid_selection (length catalog)]) /\
  count is_init (trace (snd run)) = 0 /\
  count is_exec (trace (snd run)) = 0.
Proof.
  intros Hge. cbv zeta. unfold run_single_task.
  destruct (task_index >=? Z.of_nat (length catalog))%Z eqn:Eg; [|lia].
  by repeat split.
Qed.

End SingleClaims.

(** * The counting fake agent *)

Section AgentInvariant.
Context {A : Type} {HA : AgentB A}.

(** A property of the agent that [execute_task] keeps is kept by the loop. *)
Lemma loop_agent_invariant (P : A -> Prop) :
(forall d u m a, P a -> P (snd (execute_task d u m a))) ->
forall jobs i n (w : World A),
  P (agent w) -> P (agent (snd (for_enumerate jobs i (run_one n) w))).
Proof.
intros Hstep. induction jobs as [|t ts IH]; intros i n w Hw; [done|].
rewrite for_enumerate_cons.
destruct (run_one_spec n i t w) as [out ->].
specialize (Hstep (description t) (url t) 15%Z (agent w) Hw).
destruct (execute_task (description t) (url t) 15 (agent w)) as [r a'].
simpl in Hstep.
destruct r as [p|e]; [by apply IH|].
destruct (isinstance_Exception e); [by apply IH | done].
Qed.

End AgentInvariant.

(** The counters of the fake after a run, whatever its script: one
    initialisation and one close. *)
Corollary fake_session_counts catalog headless ia sched ca :
  let a := agent (snd (run_all_tasks catalog headless
                         (init_world (mkFake ia sched ca 0 0 0)))) in
  init_calls a = 1 /\ close_calls a = 1.
Proof.
  cbv zeta. rewrite run_all_tasks_eq. simpl.
  set (P := fun a : Fake => init_calls a = 1 /\ close_calls a = 0).
  assert (Hclose : forall rl (wl : World Fake),
            P (agent wl) ->
            init_calls (agent (snd (after_close rl wl))) = 1 /\
            close_calls (agent (snd (after_close rl wl))) = 1).
  { intros rl wl [Hi Hc]. unfold after_close. simpl.
    destruct (close_answer (agent wl)), rl; simpl; by rewrite Hi, Hc. }
  destruct ia as [[]|e].
  - set (wi := mkWorld _ _ _ _).
    pose proof (loop_agent_invariant P) as Hinv.
    specialize (Hinv (fun d u m a '(conj Hi Hc) => conj Hi Hc)
                     catalog 1 (length catalog) wi (conj eq_refl eq_refl)).
    destruct (for_enumerate catalog 1 (run_one (length catalog)) wi) as [rl wl].
    by apply Hclose.
  - by apply Hclose.
Qed.

(** * Scenarios *)

(** "JobA fails, JobB succeeds": the two records, and the report. *)
Example scenario_A_fails_B_succeeds :
  let run := run_all_tasks [jobA; jobB] false (init_world fake_AB) in
  fst run = Ret tt /\
  results (snd run) = [failedA; successB] /\
  make_report (results (snd run)) =
    mkReport 2 1 1 ["AppA"; "AppB"] [failedA; successB] the_dataset_structure.
Proof. vm_compute. repeat split. Qed.

(** The empty catalog: no record, and the session is still opened and
    closed. *)
Example scenario_empty_catalog :
  let run := run_all_tasks [] true (init_world (fake [])) in
  fst run = Ret tt /\
  results (snd run) = [] /\
  trace (snd run) = [EInit true; EClose; EDump (make_report [])].
Proof. vm_compute. repeat split. Qed.

(** The catalog of the module with an agent that always succeeds: five
    records, five calls, each followed by the sleep. *)
Example scenario_TASKS_all_succeed :
  let run := run_all_tasks TASKS false (init_world (fake [])) in
  length (results (snd run)) = 5 /\
  count is_exec (trace (snd run)) = 5 /\
  count is_sleep (trace (snd run)) = 5 /\
  forallb is_success (results (snd run)) = true.
Proof. vm_compute. repeat split. Qed.

(** * Instances *)

Lemma run_all_tasks_one_outcome_per_job_witness :
  initialize_browser false fake_AB
    = (Ret tt, fake_AB_started) /\
  forallb catchable
    (answers [jobA; jobB] (fake_AB_started)) = true /\
  results (snd (run_all_tasks [jobA; jobB] false (init_world fake_AB)))
    = [failedA; successB].
Proof.
  split; [reflexivity|]. split; [reflexivity|].
  destruct (run_all_tasks_one_outcome_per_job (HA := Fake_AgentB) [jobA; jobB] false fake_AB
              (fake_AB_started) ltac:(reflexivity) ltac:(reflexivity))
    as (_ & _ & _ & ->).
  reflexivity.
Defined.

Lemma run_all_tasks_failure_isolation_witness :
  initialize_browser false fake_AB
    = (Ret tt, fake_AB_started) /\
  forallb catchable
    (answers [jobA; jobB] (fake_AB_started)) = true /\
  [jobA; jobB] !! 0 = Some jobA /\
  answers [jobA; jobB] (fake_AB_started) !! 0
    = Some (Raise (Exception "boom")) /\
  results (snd (run_all_tasks [jobA; jobB] false (init_world fake_AB))) !! 0
    = Some failedA /\
  exec_calls_in (trace (snd (run_all_tasks [jobA; jobB] false (init_world fake_AB))))
    = [EExec "do A" "https://a.example/" 15; EExec "do B" "https://b.example/" 15].
Proof.
  do 4 (split; [reflexivity|]).
  destruct (run_all_tasks_failure_isolation (HA := Fake_AgentB) [jobA; jobB] false fake_AB
              (fake_AB_started) 0 jobA (Exception "boom")
              ltac:(reflexivity) ltac:(reflexivity) ltac:(reflexivity) ltac:(reflexivity))
    as (_ & H0 & Hcalls & _).
  split; [exact H0 | exact Hcalls].
Defined.

Lemma generate_summary_report_fields_witness :
  forallb valid_status [failedA; successB] = true /\
  exists report,
    trace (snd (generate_summary_report [failedA; successB] (init_world fake_AB)))
      = [EDump report] /\
    successful_tasks report + failed_tasks report = total_tasks report /\
    total_tasks report = 2.
Proof.
  split; [reflexivity|].
  destruct (generate_summary_report_fields [failedA; successB]
              (init_world fake_AB) ltac:(reflexivity))
    as (report & _ & Ht & Hn & _ & _ & _ & _ & Hsum & _).
  exists report. split; [exact Ht|]. split; [exact Hsum | exact Hn].
Defined.

Lemma run_single_task_in_range_witness :
  (0 <= 0 < Z.of_nat (length [jobA; jobB]))%Z /\
  [jobA; jobB] !! Z.to_nat 0 = Some jobA /\
  fst (run_single_task [jobA; jobB] 0 false (init_world fake_AB))
    = Raise (Exception "boom") /\
  trace (snd (run_single_task [jobA; jobB] 0 false (init_world fake_AB)))
    = [EInit false; EExec "do A" "https://a.example/" 15; EClose].
Proof.
  split; [simpl; lia|]. split; [reflexivity|].
  destruct (run_single_task_in_range (HA := Fake_AgentB) [jobA; jobB] 0 false fake_AB jobA
              ltac:(simpl; lia) ltac:(reflexivity))
    as (Ht & _ & _ & _ & _ & Hr & _).
  split; [exact Hr | exact Ht].
Defined.

Lemma run_single_task_out_of_range_witness :
  (5 >= Z.of_nat (length TASKS))%Z /\
  run_single_task TASKS 5 false (init_world fake_AB)
    = (Ret tt, mkWorld fake_AB [] [] ["Invalid task index. Available tasks: 0-4"]) /\
  count is_init (trace (snd (run_single_task TASKS 5 false (init_world fake_AB)))) = 0.
Proof.
  split; [simpl; lia|].
  destruct (run_single_task_out_of_range (HA := Fake_AgentB) TASKS 5 false fake_AB
              ltac:(simpl; lia))
    as (Hrun & Hinit & _).
  split; [exact Hrun | exact Hinit].
Defined.

Lemma run_all_tasks_step_bound_15_witness :
  initialize_browser false fake_AB
    = (Ret tt, fake_AB_started) /\
  forallb catchable
    (answers [jobA; jobB] (fake_AB_started)) = true /\
  exec_calls_in (trace (snd (run_all_tasks [jobA; jobB] false (init_world fake_AB))))
    = [EExec "do A" "https://a.example/" 15; EExec "do B" "https://b.example/" 15].
Proof.
  split; [reflexivity|]. split; [reflexivity|].
  destruct (run_all_tasks_step_bound_15 (HA := Fake_AgentB) [jobA; jobB] false fake_AB
              (fake_AB_started) ltac:(reflexivity) ltac:(reflexivity))
    as [Hcalls _].
  exact Hcalls.
Defined.

Lemma run_all_tasks_init_failure_witness :
  initialize_browser false fake_no_session
    = (Raise (Exception "no browser"),
       fake_no_session_tried) /\
  trace (snd (run_all_tasks TASKS false (init_world fake_no_session)))
    = [EInit false; EClose] /\
  fst (run_all_tasks TASKS false (init_world fake_no_session))
    = Raise (Exception "no browser").
Proof.
  split; [reflexivity|].
  destruct (run_all_tasks_init_failure (HA := Fake_AgentB) TASKS false fake_no_session
              (fake_no_session_tried)
              (Exception "no browser") ltac:(reflexivity))
    as (Ht & _ & _ & _ & _ & _ & Hr).
  split; [exact Ht | exact Hr].
Defined.

(** C7, as stated, fails.  The agent fails on the one job; single-job mode
    raises the failure to its caller and makes no record, where the batch
    runner on the same one-element sequence returns and records the failed
    outcome. *)
Lemma run_single_task_failure_not_absorbed :
  let a := fake [Raise (Exception "boom")] in
  fst (run_single_task [jobA] 0 false (init_world a)) = Raise (Exception "boom") /\
  results (snd (run_single_task [jobA] 0 false (init_world a))) = [] /\
  fst (run_all_tasks [jobA] false (init_world a)) = Ret tt /\
  results (snd (run_all_tasks [jobA] false (init_world a))) = [failedA].
Proof. vm_compute. repeat split. Qed.

(** C10, as stated, fails.  The session does not start and the close of
    the session that never started raises as well: the run raises the
    exception of the close, not the initialisation error. *)
Lemma init_error_replaced_by_close_error :
  let run := run_all_tasks TASKS false (init_world fake_no_session_close_fails) in
  init_answer fake_no_session_close_fails = Raise (Exception "no browser") /\
  trace (snd run) = [EInit false; EClose] /\
  fst run = Raise (Exception "session was never started") /\
  fst run <> Raise (Exception "no browser").
Proof. vm_compute. repeat split; discriminate. Qed.

(** C9, as stated, fails.  A job with the step bound 5: the call made for
    it has the step bound 15, not the job's own. *)
Lemma max_steps_not_passed_through :
  let j := mkSpecJob "AppA" "do A" "https://a.example/" ["a1"; "a2"] 5 in
  exec_calls_in
    (trace (snd (run_all_tasks [task_of_job j] false (init_world (fake [])))))
    = [EExec "do A" "https://a.example/" 15] /\
  exec_calls_in
    (trace (snd (run_all_tasks [task_of_job j] false (init_world (fake [])))))
    <> [spec_call j].
Proof. vm_compute. split; [reflexivity | discriminate]. Qed.


(** * More about the batch runner *)

Section BatchMore.
Context {A : Type} {HA : AgentB A}.

Lemma for_enumerate_app {T : Type} (l1 l2 : list T)
    (body : nat -> T -> M A unit) : forall i w,
  for_enumerate (l1 ++ l2) i body w =
  match for_enumerate l1 i body w with
  | (Ret _, w1) => for_enumerate l2 (i + length l1) body w1
  | (Raise e, w1) => (Raise e, w1)
  end.
Proof.
  induction l1 as [|x l1 IH]; intros i w.
  - simpl. by rewrite Nat.add_0_r.
  - rewrite <- app_comm_cons, !for_enumerate_cons.
    destruct (body i x w) as [[u|e] w1]; [|done].
    rewrite IH. simpl. by rewrite Nat.add_succ_r.
Qed.

Lemma count_sleep_events_of t r :
  count is_sleep (events_of t r) = if returns r then 1 else 0.
Proof. by destruct r. Qed.

Lemma is_success_outcome_of t r : is_success (outcome_of t r) = returns r.
Proof. by destruct r. Qed.

Lemma exec_calls_in_app (l1 l2 : list Event) :
  exec_calls_in (l1 ++ l2) = exec_calls_in l1 ++ exec_calls_in l2.
Proof. apply List.filter_app. Qed.

Lemma exec_calls_events_of t r : exec_calls_in (events_of t r) = [call_of t].
Proof. by destruct r. Qed.

(** The loop, counted: the sleeps are as many as the success records, the
    [execute_task] calls are the calls of the first jobs of the list, one
    per record and one more if an exception left the loop, and a loop that
    runs to its end has made a record for every job. *)
Lemma loop_counts jobs : forall i n (w : World A),
  exists (new : list Outcome) (mid : list Event),
    results (snd (for_enumerate jobs i (run_one n) w)) = results w ++ new /\
    trace (snd (for_enumerate jobs i (run_one n) w)) = trace w ++ mid /\
    count is_sleep mid = length (List.filter is_success new) /\
    exec_calls_in mid =
      take (length new
            + (if returns (fst (for_enumerate jobs i (run_one n) w))
               then 0 else 1))
           (call_of <$> jobs) /\
    length new
      + (if returns (fst (for_enumerate jobs i (run_one n) w)) then 0 else 1)
      <= length jobs /\
    (returns (fst (for_enumerate jobs i (run_one n) w)) = true ->
     length new = length jobs).
Proof.
  induction jobs as [|t ts IH]; intros i n w.
  - exists [], []. simpl. rewrite !app_nil_r. repeat split; auto.
  - rewrite for_enumerate_cons.
    destruct (run_one_spec n i t w) as [out ->].
    destruct (execute_task (description t) (url t) 15 (agent w)) as [r a'].
    set (w1 := mkWorld a' _ _ _).
    destruct (catchable r) eqn:Ec.
    + assert (Hres : (match r with
                      | Ret _ => Ret tt
                      | Raise e => if isinstance_Exception e then Ret tt else Raise e
                      end) = Ret tt).
      { destruct r as [p|e]; [done|]. simpl in Ec. by rewrite Ec. }
      rewrite Hres.
      destruct (IH (S i) n w1) as (new & mid & Hr & Ht & Hs & Hx & Hl & Hf).
      rewrite Hr, Ht. subst w1. cbn [results trace].
      exists (outcome_of t r :: new), (events_of t r ++ mid).
      rewrite <- !app_assoc.
      split; [reflexivity|]. split; [reflexivity|].
      split; [|split; [|split]].
      * rewrite count_app, count_sleep_events_of, Hs. cbn [List.filter].
        rewrite is_success_outcome_of. by destruct (returns r).
      * rewrite exec_calls_in_app, exec_calls_events_of, Hx. reflexivity.
      * simpl. lia.
      * intros Hret. simpl. by rewrite Hf.
    + destruct r as [p|e]; [discriminate|]. simpl in Ec. rewrite Ec.
      subst w1. cbn [snd fst results trace returns].
      exists [], (events_of t (Raise e)). rewrite app_nil_r.
      repeat split; auto; simpl; try lia; try discriminate.
Qed.

(** The [finally] clause, by what the run then gives. *)
Lemma after_close_cases rl (wl : World A) :
  trace (snd (after_close rl wl)) =
    trace wl ++ EClose
      :: (if returns (fst (after_close rl wl))
          then [EDump (make_report (results wl))] else []) /\
  returns (fst (after_close rl wl))
    = returns rl && returns (fst (close_browser (agent wl))).
Proof.
  unfold after_close.
  by destruct (close_browser (agent wl)) as [[uc|ec] ac], rl.
Qed.

(** Every run, counted. *)
Lemma run_all_tasks_summary catalog headless (a0 : A) :
  exists (mid : list Event) (k : nat),
    trace (snd (run_all_tasks catalog headless (init_world a0))) =
      EInit headless :: mid ++ EClose
        :: (if returns (fst (run_all_tasks catalog headless (init_world a0)))
            then [EDump (make_report
                    (results (snd (run_all_tasks catalog headless
                                     (init_world a0)))))]
            else []) /\
    count is_sleep mid =
      length (List.filter is_success
                (results (snd (run_all_tasks catalog headless (init_world a0))))) /\
    exec_calls_in mid = take k (call_of <$> catalog) /\
    k <= length catalog /\
    length (results (snd (run_all_tasks catalog headless (init_world a0)))) <= k /\
    k <= S (length (results (snd (run_all_tasks catalog headless (init_world a0))))) /\
    (returns (fst (run_all_tasks catalog headless (init_world a0))) = true ->
     length (results (snd (run_all_tasks catalog headless (init_world a0))))
       = length catalog) /\
    Forall (loop_event catalog) mid.
Proof.
  rewrite run_all_tasks_eq. simpl.
  destruct (initialize_browser headless a0) as [[u|e] ai].
  - set (wi := mkWorld ai _ _ _).
    destruct (loop_counts catalog 1 (length catalog) wi)
      as (new & mid & Hr & Ht & Hs & Hx & Hl & Hf).
    destruct (loop_general catalog 1 (length catalog) wi)
      as (new' & mid' & _ & Ht' & _ & Hm & _).
    rewrite Ht in Ht'. apply app_inv_head in Ht'. subst mid'.
    destruct (for_enumerate _ _ _ wi) as [rl wl]. simpl in Hr, Ht, Hx, Hl, Hf.
    destruct (after_close_cases rl wl) as [Hc Hb].
    rewrite Hc, Ht, after_close_results, Hr, Hb.
    exists mid, (length new + (if returns rl then 0 else 1)).
    repeat split; auto; try lia.
    + destruct (returns rl); lia.
    + intros Hret. apply andb_prop in Hret as [Hret _]. by apply Hf.
  - set (wi := mkWorld ai _ _ _).
    destruct (after_close_cases (Raise e) wi) as [Hc Hb].
    rewrite Hc, after_close_results, Hb.
    exists [], 0. simpl. repeat split; auto; try lia; try discriminate.
Qed.

Lemma count_loop_events (p : Event -> bool) jobs :
  (forall d u m, p (EExec d u m) = false) ->
  (forall n, p (ESleep n) = false) ->
  forall ans : list (Res string),
    count p (mjoin (zip_with events_of jobs ans)) = 0.
Proof.
  intros Hx Hs. induction jobs as [|t ts IH]; intros [|r ans]; try done.
  cbn [zip_with mjoin list_join]. rewrite count_app, IH.
  unfold events_of, count. simpl. rewrite Hx.
  destruct (returns r); simpl; by rewrite ?Hs.
Qed.

Lemma count_is_exec (tr : list Event) :
  count is_exec tr = length (exec_calls_in tr).
Proof. reflexivity. Qed.

Lemma last_cons_snoc (x y : Event) l : last (x :: l ++ [y]) = Some y.
Proof. exact (last_snoc y (x :: l)). Qed.

Lemma last_cons_snoc2 (x y z : Event) l : last (x :: l ++ [y; z]) = Some z.
Proof.
  change (x :: l ++ [y; z]) with (x :: l ++ [y] ++ [z]).
  rewrite app_assoc. exact (last_snoc z (x :: l ++ [y])).
Qed.

Lemma after_close_raise_trace e (wl : World A) :
  trace (snd (after_close (Raise e) wl)) = trace wl ++ [EClose].
Proof.
  unfold after_close. by destruct (close_browser (agent wl)) as [[uc|ec] ac].
Qed.

Lemma after_close_raise_result e (wl : World A) :
  fst (after_close (Raise e) wl) =
  match fst (close_browser (agent wl)) with
  | Ret _ => Raise e
  | Raise e' => Raise e'
  end.
Proof.
  unfold after_close. by destruct (close_browser (agent wl)) as [[uc|ec] ac].
Qed.

(** X1.  An exception that is not an [Exception] stops the batch.  When the
    jobs before [t] are answered by returns or [Exception]s and the agent
    raises such an exception on [t]: the records are those of the jobs
    before [t], [execute_task] is called for those jobs and for [t] and for
    no later job, the session is closed as the last call, no report is
    dumped, and the run raises the exception (or what the close raises). *)
Theorem run_all_tasks_interrupted pre t post headless (a0 a1 a2 : A) e :
  initialize_browser headless a0 = (Ret tt, a1) ->
  forallb catchable (answers pre a1) = true ->
  execute_task (description t) (url t) 15 (agent_after pre a1) = (Raise e, a2) ->
  isinstance_Exception e = false ->
  let run := run_all_tasks (pre ++ t :: post) headless (init_world a0) in
  results (snd run) = zip_with outcome_of pre (answers pre a1) /\
  exec_calls_in (trace (snd run)) = call_of <$> (pre ++ [t]) /\
  count is_dump (trace (snd run)) = 0 /\
  last (trace (snd run)) = Some EClose /\
  fst run = match fst (close_browser a2) with
            | Ret _ => Raise e
            | Raise e' => Raise e'
            end.
Proof.
  intros Hi Hc He Hne run. subst run.
  rewrite run_all_tasks_eq. simpl. rewrite Hi.
  set (wi := mkWorld a1 _ _ _). rewrite for_enumerate_app.
  destruct (loop_catchable pre 1 (length (pre ++ t :: post)) wi Hc) as [out ->].
  rewrite for_enumerate_cons.
  match goal with |- context [run_one ?n ?i t ?w] =>
    destruct (run_one_spec n i t w) as [out2 ->] end.
  subst wi. cbn [agent results trace stdout]. rewrite He. cbn [catchable].
  rewrite Hne. rewrite after_close_results. cbn [results]. rewrite app_nil_r.
  split; [reflexivity|].
  rewrite after_close_raise_trace, after_close_raise_result. cbn [trace agent].
  split; [|split; [|split]].
  - rewrite !exec_calls_in_app, exec_calls_of_loop by apply length_answers.
    rewrite exec_calls_events_of, fmap_app. cbn. by rewrite app_nil_r.
  - rewrite !count_app, count_loop_events; done.
  - apply last_snoc.
  - reflexivity.
Qed.

(** X2.  A close that fails loses the report.  When the session starts,
    every job is answered by a return or an [Exception], and
    [close_browser] then raises: the run raises that exception, although a
    record was made for every job; no report is dumped, and the close is
    the last call. *)
Theorem run_all_tasks_close_fails catalog headless (a0 a1 a2 : A) e :
  initialize_browser headless a0 = (Ret tt, a1) ->
  forallb catchable (answers catalog a1) = true ->
  close_browser (agent_after catalog a1) = (Raise e, a2) ->
  let run := run_all_tasks catalog headless (init_world a0) in
  fst run = Raise e /\
  length (results (snd run)) = length catalog /\
  count is_dump (trace (snd run)) = 0 /\
  last (trace (snd run)) = Some EClose.
Proof.
  intros Hi Hc Hcl run. subst run.
  destruct (run_all_tasks_catchable catalog headless a0 a1 Hi Hc) as [out ->].
  unfold after_close. cbn [agent results trace stdout]. rewrite Hcl.
  cbn [fst snd results trace].
  split; [reflexivity|]. split; [|split].
  - rewrite length_zip_with, length_answers. lia.
  - change (EInit headless :: ?l) with ([EInit headless] ++ l).
    rewrite !count_app, count_loop_events; done.
  - apply last_cons_snoc.
Qed.

(** X3.  The report is dumped exactly when the run returns.  In every run,
    whatever the agent does: if the run returns, it has dumped one report,
    as its last call, on the final [results], and these hold a record for
    every job of the catalog; if the run raises, it has dumped no report
    and its last call is the close. *)
Theorem run_all_tasks_report_iff_returns catalog headless (a0 : A) :
  let run := run_all_tasks catalog headless (init_world a0) in
  if returns (fst run) then
    count is_dump (trace (snd run)) = 1 /\
    last (trace (snd run)) = Some (EDump (make_report (results (snd run)))) /\
    length (results (snd run)) = length catalog
  else
    count is_dump (trace (snd run)) = 0 /\
    last (trace (snd run)) = Some EClose.
Proof.
  cbv zeta.
  destruct (run_all_tasks_summary catalog headless a0)
    as (mid & k & Ht & _ & _ & _ & _ & _ & Hf & Hm).
  assert (Hd : count is_dump mid = 0).
  { apply count_none. eapply Forall_impl; [exact Hm|]. intros ev Hev.
    by destruct (loop_event_kind _ _ Hev) as (_ & _ & ?). }
  rewrite Ht.
  destruct (returns (fst (run_all_tasks catalog headless (init_world a0)))).
  - split; [|split; [|by apply Hf]].
    + change (EInit headless :: mid ++ EClose :: ?l)
        with ([EInit headless] ++ mid ++ [EClose] ++ l).
      by rewrite !count_app, Hd.
    + apply last_cons_snoc2.
  - split.
    + change (EInit headless :: mid ++ [EClose])
        with ([EInit headless] ++ mid ++ [EClose]).
      by rewrite !count_app, Hd.
    + apply last_cons_snoc.
Qed.

(** X4.  The pauses are the successes.  In every run, whatever the agent
    does, [asyncio.sleep] is called as many times as [results] holds
    success records: once after every job that succeeded, the last job
    included, and never after a job that failed. *)
Theorem run_all_tasks_sleeps_are_successes catalog headless (a0 : A) :
  let run := run_all_tasks catalog headless (init_world a0) in
  count is_sleep (trace (snd run))
    = length (List.filter is_success (results (snd run))).
Proof.
  cbv zeta.
  destruct (run_all_tasks_summary catalog headless a0)
    as (mid & k & Ht & Hs & _ & _ & _ & _ & _ & _).
  rewrite Ht, <- Hs.
  change (EInit headless :: mid ++ EClose :: ?l)
    with ([EInit headless] ++ mid ++ [EClose] ++ l).
  rewrite !count_app.
  destruct (returns (fst (run_all_tasks catalog headless (init_world a0))));
    cbn; lia.
Qed.

(** X5.  No job is run twice and none is skipped.  In every run, whatever
    the agent does, the [execute_task] calls are the calls of the first
    jobs of the catalog, in catalog order, each once; there are as many
    calls as records, or one more when an exception stopped the loop. *)
Theorem run_all_tasks_calls_are_a_prefix catalog headless (a0 : A) :
  let run := run_all_tasks catalog headless (init_world a0) in
  exec_calls_in (trace (snd run))
    = take (count is_exec (trace (snd run))) (call_of <$> catalog) /\
  count is_exec (trace (snd run)) <= length catalog /\
  length (results (snd run)) <= count is_exec (trace (snd run)) /\
  count is_exec (trace (snd run)) <= S (length (results (snd run))).
Proof.
  cbv zeta.
  destruct (run_all_tasks_summary catalog headless a0)
    as (mid & k & Ht & _ & Hx & Hk & Hlo & Hhi & _ & _).
  assert (Hcalls :
    exec_calls_in (trace (snd (run_all_tasks catalog headless (init_world a0))))
    = take k (call_of <$> catalog)).
  { rewrite Ht, <- Hx.
    change (EInit headless :: mid ++ EClose :: ?l)
      with ([EInit headless] ++ mid ++ [EClose] ++ l).
    rewrite !exec_calls_in_app.
    destruct (returns (fst (run_all_tasks catalog headless (init_world a0))));
      cbn; by rewrite app_nil_r. }
  assert (Hcount :
    count is_exec (trace (snd (run_all_tasks catalog headless (init_world a0))))
    = k).
  { rewrite count_is_exec, Hcalls, length_take, length_fmap. lia. }
  rewrite Hcount. by repeat split.
Qed.

End BatchMore.

(** * What the runner does not look at *)

Section NonInterference.
Context {A : Type} {HA : AgentB A}.

Lemma same_job_outcome_of t1 t2 r :
  same_job t1 t2 -> outcome_of t1 r = outcome_of t2 r.
Proof. intros (Ha & Hd & _). destruct r; simpl; by rewrite Ha, Hd. Qed.

Lemma same_job_events_of t1 t2 r :
  same_job t1 t2 -> events_of t1 r = events_of t2 r.
Proof. intros (_ & Hd & Hu). unfold events_of. by rewrite Hd, Hu. Qed.

Lemma run_one_same n1 n2 i1 i2 t1 t2 (w1 w2 : World A) :
  same_job t1 t2 -> same_effects w1 w2 ->
  fst (run_one n1 i1 t1 w1) = fst (run_one n2 i2 t2 w2) /\
  same_effects (snd (run_one n1 i1 t1 w1)) (snd (run_one n2 i2 t2 w2)).
Proof.
  intros Hj (Ha & Hr & Ht).
  destruct (run_one_spec n1 i1 t1 w1) as [out1 ->].
  destruct (run_one_spec n2 i2 t2 w2) as [out2 ->].
  pose proof Hj as (_ & Hd & Hu). rewrite Hd, Hu, Ha, Hr, Ht.
  destruct (execute_task (description t2) (url t2) 15 (agent w2)) as [r a'].
  rewrite (same_job_events_of t1 t2 r Hj), (same_job_outcome_of t1 t2 r Hj).
  done.
Qed.

Lemma loop_same c1 c2 :
  Forall2 same_job c1 c2 ->
  forall i1 i2 n1 n2 (w1 w2 : World A),
    same_effects w1 w2 ->
    fst (for_enumerate c1 i1 (run_one n1) w1)
      = fst (for_enumerate c2 i2 (run_one n2) w2) /\
    same_effects (snd (for_enumerate c1 i1 (run_one n1) w1))
                 (snd (for_enumerate c2 i2 (run_one n2) w2)).
Proof.
  induction 1 as [|t1 t2 c1 c2 Hj _ IH]; intros i1 i2 n1 n2 w1 w2 Hw.
  - done.
  - rewrite !for_enumerate_cons.
    destruct (run_one_same n1 n2 i1 i2 t1 t2 w1 w2 Hj Hw) as [Hf Hs].
    destruct (run_one n1 i1 t1 w1) as [r1 w1'].
    destruct (run_one n2 i2 t2 w2) as [r2 w2'].
    simpl in Hf, Hs. subst r2. destruct r1 as [u|e]; [|done].
    by apply IH.
Qed.

Lemma after_close_same rl (w1 w2 : World A) :
  same_effects w1 w2 ->
  fst (after_close rl w1) = fst (after_close rl w2) /\
  same_effects (snd (after_close rl w1)) (snd (after_close rl w2)).
Proof.
  intros (Ha & Hr & Ht). unfold after_close, same_effects.
  rewrite Ha, Hr, Ht.
  by destruct (close_browser (agent w2)) as [[uc|ec] ac], rl.
Qed.

(** X6.  The expected states of a job are printed and nothing else.  Two
    catalogs whose jobs agree, position by position, on application,
    description and url give the same run against the same agent: the same
    return or exception, the same calls in the same order (the dumped
    report included), the same records and the same final agent. *)
Theorem run_all_tasks_ignores_expected_states c1 c2 headless (a0 : A) :
  Forall2 same_job c1 c2 ->
  let run1 := run_all_tasks c1 headless (init_world a0) in
  let run2 := run_all_tasks c2 headless (init_world a0) in
  fst run1 = fst run2 /\
  trace (snd run1) = trace (snd run2) /\
  results (snd run1) = results (snd run2) /\
  agent (snd run1) = agent (snd run2).
Proof.
  intros Hc. cbv zeta. rewrite !run_all_tasks_eq. simpl.
  destruct (initialize_browser headless a0) as [[u|e] ai].
  - match goal with
    | |- context [for_enumerate c1 1 (run_one ?n1) ?w1] =>
      match goal with
      | |- context [for_enumerate c2 1 (run_one ?n2) ?w2] =>
        destruct (loop_same c1 c2 Hc 1 1 n1 n2 w1 w2) as [Hf Hs];
          [done|];
        destruct (for_enumerate c1 1 (run_one n1) w1) as [r1 w1'];
        destruct (for_enumerate c2 1 (run_one n2) w2) as [r2 w2']
      end
    end.
    simpl in Hf, Hs. subst r2.
    destruct (after_close_same r1 w1' w2' Hs) as (-> & Ha & Hr & Ht).
    done.
  - match goal with
    | |- context [after_close (Raise e) ?w1] =>
      match goal with
      | |- (after_close (Raise e) w1).1 = (after_close (Raise e) ?w2).1 /\ _ =>
        destruct (after_close_same (Raise e) w1 w2) as (-> & Ha & Hr & Ht);
          [done|]
      end
    end.
    done.
Qed.

(** X7.  The tally on the console is the tally of the report.  When the
    run returns, its last call dumps a report, and the last lines it has
    printed give that report's total, success and failure counts. *)
Theorem run_all_tasks_tally_matches_report catalog headless (a0 : A) :
  fst (run_all_tasks catalog headless (init_world a0)) = Ret tt ->
  exists report out,
    last (trace (snd (run_all_tasks catalog headless (init_world a0))))
      = Some (EDump report) /\
    stdout (snd (run_all_tasks catalog headless (init_world a0))) =
      out ++
      [ NL +:+ "📊 Summary report generated: dataset_summary.json";
        NL +:+ banner; "ALL TASKS COMPLETED"; banner;
        NL +:+ "Total tasks: " +:+ pretty (total_tasks report);
        "Successful: " +:+ pretty (successful_tasks report);
        "Failed: " +:+ pretty (failed_tasks report);
        NL +:+ "Dataset location: ./captured_states/";
        "Summary report: ./dataset_summary.json" ].
Proof.
  rewrite run_all_tasks_eq. simpl.
  assert (Hac : forall rl (wl : World A),
            fst (after_close rl wl) = Ret tt ->
            exists report out,
              last (trace (snd (after_close rl wl))) = Some (EDump report) /\
              stdout (snd (after_close rl wl)) =
                out ++
                [ NL +:+ "📊 Summary report generated: dataset_summary.json";
                  NL +:+ banner; "ALL TASKS COMPLETED"; banner;
                  NL +:+ "Total tasks: " +:+ pretty (total_tasks report);
                  "Successful: " +:+ pretty (successful_tasks report);
                  "Failed: " +:+ pretty (failed_tasks report);
                  NL +:+ "Dataset location: ./captured_states/";
                  "Summary report: ./dataset_summary.json" ]).
  { intros rl wl. unfold after_close.
    destruct (close_browser (agent wl)) as [[uc|ec] ac], rl; try discriminate.
    intros _. exists (make_report (results wl)), (stdout wl).
    split; [|reflexivity]. cbn [snd trace].
    change [EClose; EDump (make_report (results wl))]
      with ([EClose] ++ [EDump (make_report (results wl))]).
    rewrite app_assoc. apply last_snoc. }
  destruct (initialize_browser headless a0) as [[u|e] ai].
  - destruct (for_enumerate _ _ _ _) as [rl wl]. apply Hac.
  - apply Hac.
Qed.

End NonInterference.

(** * More about single-job mode *)

Section SingleMore.
Context {A : Type} {HA : AgentB A}.

(** Single-job mode once the guard has let the index through and the
    indexing has given a job. *)
Lemma run_single_task_selected catalog (task_index : Z) headless
    (a0 : A) (task : Task) :
  (task_index < Z.of_nat (length catalog))%Z ->
  py_getitem catalog task_index = Ret task ->
  trace (snd (run_single_task catalog task_index headless (init_world a0))) =
    EInit headless
      :: (if returns (fst (initialize_browser headless a0))
          then [call_of task] else [])
      ++ [EClose] /\
  results (snd (run_single_task catalog task_index headless (init_world a0)))
    = [] /\
  (returns (fst (run_single_task catalog task_index headless (init_world a0)))
     = true ->
   returns (fst (initialize_browser headless a0)) = true).
Proof.
  intros Hlt Hget. unfold run_single_task.
  destruct (task_index >=? Z.of_nat (length catalog))%Z eqn:Eg; [lia|].
  unfold lift_res, bind at 1. rewrite Hget.
  unfold try_finally, agent_initialize_browser, agent_execute_task,
    agent_close_browser, call_agent, emit, print, bind, init_world; simpl.
  destruct (initialize_browser headless a0) as [[ui|ei] ai]; simpl.
  - destruct (execute_task (description task) (url task) 15 ai)
      as [[p|ee] ae]; simpl;
      destruct (close_browser ae) as [[uc|ec] ac]; simpl; by repeat split.
  - destruct (close_browser ai) as [[uc|ec] ac]; simpl; by repeat split.
Qed.

Lemma py_getitem_negative {T : Type} (l : list T) (i : Z) (x : T) :
  (- Z.of_nat (length l) <= i < 0)%Z ->
  l !! Z.to_nat (Z.of_nat (length l) + i) = Some x ->
  py_getitem l i = Ret x.
Proof.
  intros Hi Hx. unfold py_getitem.
  destruct (i <? 0)%Z eqn:En; [|lia].
  assert (Hb : ((0 <=? Z.of_nat (length l) + i)%Z
                && (Z.of_nat (length l) + i <? Z.of_nat (length l))%Z)%bool
               = true)
    by (apply andb_true_intro; split; lia).
  by rewrite Hb, Hx.
Qed.


(** X8.  A negative index counts from the end.  The guard of
    [run_single_task] only rejects indices at or beyond the length, so for
    an index [i] with [-len <= i < 0] the job at position [len + i] is run:
    the session is opened, [execute_task] is called for that job if the
    session started, and the session is closed. *)
Theorem run_single_task_negative_index catalog (task_index : Z) headless
    (a0 : A) (task : Task) :
  (- Z.of_nat (length catalog) <= task_index < 0)%Z ->
  catalog !! Z.to_nat (Z.of_nat (length catalog) + task_index) = Some task ->
  trace (snd (run_single_task catalog task_index headless (init_world a0))) =
    EInit headless
      :: (if returns (fst (initialize_browser headless a0))
          then [EExec (description task) (url task) 15] else [])
      ++ [EClose].
Proof.
  intros Hi Ht.
  apply (run_single_task_selected catalog task_index headless a0 task).
  - lia.
  - by apply py_getitem_negative.
Qed.


Lemma py_getitem_elem_of {T : Type} (l : list T) (i : Z) (x : T) :
  py_getitem l i = Ret x -> x ∈ l.
Proof.
  unfold py_getitem.
  destruct ((0 <=? _)%Z && (_ <? _)%Z)%bool; [|discriminate].
  destruct (l !! _) as [y|] eqn:E; [|discriminate].
  intros [= <-]. by eapply list_elem_of_lookup_2.
Qed.

(** Single-job mode against the recording agent: the same result, the agent
    inside in the same state, and what it has received is the trace. *)
Lemma run_single_task_recorded catalog (task_index : Z) headless (a0 : A) :
  fst (run_single_task catalog task_index headless (init_world a0))
    = fst (run_single_task catalog task_index headless
             (init_world (recording a0))) /\
  agent (snd (run_single_task catalog task_index headless (init_world a0)))
    = inner (agent (snd (run_single_task catalog task_index headless
                           (init_world (recording a0))))) /\
  received (agent (snd (run_single_task catalog task_index headless
                          (init_world (recording a0)))))
    = trace (snd (run_single_task catalog task_index headless (init_world a0))).
Proof.
  unfold run_single_task.
  destruct (task_index >=? Z.of_nat (length catalog))%Z; [done|].
  unfold lift_res, try_finally, agent_initialize_browser, agent_execute_task,
    agent_close_browser, call_agent, emit, print, bind, init_world, recording.
  destruct (py_getitem catalog task_index) as [task|e]; [|done].
  cbn [agent results trace stdout initialize_browser execute_task
       close_browser Recording_AgentB inner received fst snd].
  destruct (initialize_browser headless a0) as [[ui|ei] ai];
    cbn [agent results trace stdout initialize_browser execute_task
         close_browser Recording_AgentB inner received fst snd].
  - destruct (execute_task (description task) (url task) 15 ai)
      as [[p|ee] ae];
      cbn [agent results trace stdout initialize_browser execute_task
           close_browser Recording_AgentB inner received fst snd];
      by destruct (close_browser ae) as [[uc|ec] ac].
  - by destruct (close_browser ai) as [[uc|ec] ac].
Qed.

(** X10.  Single-job mode never leaves a session open and never does the
    work of the batch.  For every index and every agent: there are as many
    [initialize_browser] calls as [close_browser] calls, at most one of
    each and at most one [execute_task] call; it never sleeps, never dumps
    a report and makes no record.  The calls are none at all, or the
    initialisation followed by the close, or the initialisation, the
    [execute_task] call of one job of the catalog and then the close: the
    one job runs only between the opening and the closing of the session.
    These calls reach the agent: run against the same agent wrapped so
    that it records what it receives, what the agent has received is the
    trace, and the agent inside ends in the same state. *)
Theorem run_single_task_session_balanced catalog (task_index : Z) headless
    (a0 : A) :
  let run := run_single_task catalog task_index headless (init_world a0) in
  let c := agent (snd (run_single_task catalog task_index headless
                         (init_world (recording a0)))) in
  count is_init (trace (snd run)) = count is_close (trace (snd run)) /\
  count is_init (trace (snd run)) <= 1 /\
  count is_exec (trace (snd run)) <= count is_init (trace (snd run)) /\
  count is_sleep (trace (snd run)) = 0 /\
  count is_dump (trace (snd run)) = 0 /\
  results (snd run) = [] /\
  (trace (snd run) = [] \/
   trace (snd run) = [EInit headless; EClose] \/
   exists task,
     task ∈ catalog /\
     trace (snd run) =
       [EInit headless; EExec (description task) (url task) 15; EClose]) /\
  received c = trace (snd run) /\
  inner c = agent (snd run).
Proof.
  cbv zeta.
  destruct (run_single_task_recorded catalog task_index headless a0)
    as (_ & Hag & Hrec).
  rewrite Hrec, <- Hag. clear Hrec Hag.
  assert (Hshape :
    results (snd (run_single_task catalog task_index headless (init_world a0)))
      = [] /\
    (trace (snd (run_single_task catalog task_index headless (init_world a0)))
       = [] \/
     trace (snd (run_single_task catalog task_index headless (init_world a0)))
       = [EInit headless; EClose] \/
     exists task,
       task ∈ catalog /\
       trace (snd (run_single_task catalog task_index headless (init_world a0)))
         = [EInit headless; EExec (description task) (url task) 15; EClose])).
  { destruct (Z_lt_ge_dec task_index (Z.of_nat (length catalog))) as [Hlt|Hge].
    - destruct (py_getitem catalog task_index) as [task|e] eqn:Hget.
      + destruct (run_single_task_selected catalog task_index headless a0 task
                    Hlt Hget) as (Ht & Hr & _).
        split; [exact Hr|]. rewrite Ht. right.
        destruct (returns (fst (initialize_browser headless a0)));
          [right | by left].
        exists task. split; [by eapply py_getitem_elem_of | reflexivity].
      + unfold run_single_task.
        destruct (task_index >=? Z.of_nat (length catalog))%Z eqn:Eg; [lia|].
        unfold lift_res, bind at 1. rewrite Hget. by split; [|left].
    - unfold run_single_task.
      destruct (task_index >=? Z.of_nat (length catalog))%Z eqn:Eg; [|lia].
      by split; [|left]. }
  destruct Hshape as [Hr Hshape]. rewrite Hr.
  destruct Hshape as [Ht | [Ht | (task & Hin & Ht)]]; rewrite Ht.
  - cbn. repeat split; try lia. by left.
  - cbn. repeat split; try lia. right. by left.
  - cbn. repeat split; try lia. right. right. by exists task.
Qed.

End SingleMore.

(** * More about the report *)

Lemma success_not_failed r : is_success r = true -> is_failed r = false.
Proof.
  unfold is_success, is_failed. intros Hs.
  apply String.eqb_eq in Hs. by rewrite Hs.
Qed.

(** X11.  The two counts of a report never count a record twice.  For every
    list of records, whatever their statuses, the success count and the
    failure count add up to at most the total, and to the total exactly
    when every status is "success" or "failed"; a record with any other
    status is in the total and in neither count. *)
Theorem make_report_counts_bound (rs : list Outcome) :
  successful_tasks (make_report rs) + failed_tasks (make_report rs)
    <= total_tasks (make_report rs) /\
  (successful_tasks (make_report rs) + failed_tasks (make_report rs)
     = total_tasks (make_report rs)
   <-> forallb valid_status rs = true).
Proof.
  cbn [successful_tasks failed_tasks total_tasks make_report].
  rewrite !py_sum_ones.
  change (length (List.filter is_success rs) + length (List.filter is_failed rs)
            <= length rs /\
          (length (List.filter is_success rs) + length (List.filter is_failed rs)
             = length rs <-> forallb valid_status rs = true)).
  induction rs as [|r rs [IHle IHeq]]; [done|].
  cbn [List.filter forallb length]. unfold valid_status at 1.
  destruct (is_success r) eqn:Es.
  - rewrite (success_not_failed r Es). cbn [length orb andb].
    split; [lia|]. rewrite <- IHeq. lia.
  - destruct (is_failed r); cbn [length orb andb].
    + split; [lia|]. rewrite <- IHeq. lia.
    + split; [lia|]. split; [lia | discriminate].
Qed.

(** X12.  The applications of a report are never more than its records,
    and there is none exactly when there is no record. *)
Theorem make_report_apps_bound (rs : list Outcome) :
  length (apps_covered (make_report rs)) <= total_tasks (make_report rs) /\
  (apps_covered (make_report rs) = [] <-> rs = []).
Proof.
  cbn [apps_covered total_tasks make_report]. split.
  - rewrite <- (length_fmap r_app rs).
    apply submseteq_length, NoDup_submseteq; [apply NoDup_elements|].
    intros a. by rewrite elem_of_elements, elem_of_list_to_set.
  - split.
    + destruct rs as [|r rs]; [done|]. intros He.
      assert (Hin : r_app r ∈ elements
                (list_to_set (r_app <$> r :: rs) : gset string)).
      { rewrite elem_of_elements, elem_of_list_to_set, fmap_cons.
        apply list_elem_of_here. }
      rewrite He in Hin. by apply elem_of_nil in Hin.
    + by intros ->.
Qed.

(** * The command line *)

Lemma is_digit_pretty_N_char n : is_digit_char (pretty_N_char n) = true.
Proof. unfold pretty_N_char. by repeat case_match. Qed.

Lemma digit_value_pretty_N_char n :
  (n < 10)%N -> digit_value (pretty_N_char n) = Z.of_N n.
Proof.
  intros Hn. rewrite <- (N2Nat.id n).
  assert (Hm : N.to_nat n < 10) by lia.
  revert Hm. generalize (N.to_nat n). intros m Hm.
  do 10 (destruct m as [|m]; [reflexivity|]). lia.
Qed.

Lemma str_all_pretty_N_go x : forall s,
  str_all is_digit_char (pretty_N_go x s) = str_all is_digit_char s.
Proof.
  induction (N.lt_wf_0 x) as [x _ IH]; intros s.
  destruct (decide (x = 0%N)) as [-> | Hx]; [by rewrite pretty_N_go_0|].
  rewrite pretty_N_go_step by lia.
  rewrite IH by (apply N.div_lt; lia).
  cbn [str_all]. by rewrite is_digit_pretty_N_char.
Qed.

Lemma length_pretty_N_go x : forall s,
  String.length s <= String.length (pretty_N_go x s).
Proof.
  induction (N.lt_wf_0 x) as [x _ IH]; intros s.
  destruct (decide (x = 0%N)) as [-> | Hx]; [by rewrite pretty_N_go_0|].
  rewrite pretty_N_go_step by lia.
  etrans; [|apply IH, N.div_lt; lia]. simpl. lia.
Qed.

Lemma digits_value_pretty_N_go x :
  exists p : Z, forall acc s,
    digits_value_from acc (pretty_N_go x s)
    = digits_value_from (acc * p + Z.of_N x)%Z s.
Proof.
  induction (N.lt_wf_0 x) as [x _ IH].
  destruct (decide (x = 0%N)) as [-> | Hx].
  - exists 1%Z. intros acc s. rewrite pretty_N_go_0. f_equal. lia.
  - destruct (IH (x `div` 10)%N) as [p Hp]; [apply N.div_lt; lia|].
    exists (p * 10)%Z. intros acc s.
    rewrite pretty_N_go_step by lia. rewrite Hp. cbn [digits_value_from].
    rewrite digit_value_pretty_N_char by (apply N.mod_lt; lia).
    f_equal.
    pose proof (N.div_mod x 10 ltac:(lia)) as Hdm.
    set (q := (x `div` 10)%N) in *. set (m := (x `mod` 10)%N) in *.
    lia.
Qed.

(** The decimal form of a position is a string of digits, and reading it
    back gives the position. *)
Lemma pretty_nat_isdigit (i : nat) : str_isdigit (pretty i) = true.
Proof.
  unfold pretty, pretty_nat, pretty, pretty_N.
  destruct (decide (N.of_nat i = 0%N)) as [_ | Hx]; [done|].
  pose proof (str_all_pretty_N_go (N.of_nat i) "") as Ha.
  pose proof (length_pretty_N_go (N.of_nat i / 10)
                (String (pretty_N_char (N.of_nat i `mod` 10)) "")) as Hl.
  rewrite <- pretty_N_go_step in Hl by lia.
  unfold str_isdigit.
  destruct (pretty_N_go (N.of_nat i) "") as [|c s] eqn:E.
  - exfalso. simpl in Hl. lia.
  - exact Ha.
Qed.

Lemma pretty_nat_value (i : nat) :
  digits_value_from 0 (pretty i) = Z.of_nat i.
Proof.
  unfold pretty, pretty_nat, pretty, pretty_N.
  destruct (decide (N.of_nat i = 0%N)) as [H0 | Hx].
  - assert (i = 0) as -> by lia. reflexivity.
  - destruct (digits_value_pretty_N_go (N.of_nat i)) as [p ->].
    cbn [digits_value_from]. lia.
Qed.

Lemma digits_value_nonneg s : forall acc,
  str_all is_digit_char s = true -> (0 <= acc)%Z ->
  (0 <= digits_value_from acc s)%Z.
Proof.
  induction s as [|c s IH]; intros acc Hs Hacc; [done|].
  cbn [str_all digits_value_from] in *.
  apply andb_prop in Hs as [Hc Hs]. apply IH; [done|].
  unfold is_digit_char in Hc. apply andb_prop in Hc as [Hlo _].
  apply Nat.leb_le in Hlo. unfold digit_value. lia.
Qed.

Lemma isdigit_not_all arg : str_isdigit arg = true -> String.eqb arg "all" = false.
Proof.
  intros Hd. destruct (String.eqb_spec arg "all") as [-> | _]; [|done].
  discriminate.
Qed.

Section MainFacts.
Context {A : Type} {HA : AgentB A}.

Lemma for_enumerate_print {T : Type} (f : nat -> T -> string) (l : list T) :
  forall i (w : World A),
    for_enumerate l i (fun i x => print (f i x)) w =
    (Ret tt,
     mkWorld (agent w) (results w) (trace w)
             (stdout w ++ imap (fun k => f (i + k)) l)).
Proof.
  induction l as [|x l IH]; intros i w.
  - simpl. rewrite app_nil_r. by destruct w.
  - rewrite for_enumerate_cons. unfold print at 1. rewrite IH.
    cbn [agent results trace stdout imap]. rewrite Nat.add_0_r.
    rewrite <- app_assoc.
    assert (Hext : imap (fun k => f (S i + k)) l
                   = imap ((fun k => f (i + k)) ∘ S) l).
    { apply imap_ext. intros k y _. cbn. by rewrite Nat.add_succ_r. }
    by rewrite Hext.
Qed.

Lemma py_getitem_nonneg {T : Type} (l : list T) (i : nat) (x : T) :
  l !! i = Some x -> py_getitem l (Z.of_nat i) = Ret x.
Proof.
  intros Hx. pose proof (lookup_lt_Some _ _ _ Hx) as Hlt. unfold py_getitem.
  destruct (Z.of_nat i <? 0)%Z eqn:En; [lia|].
  assert (Hb : ((0 <=? Z.of_nat i)%Z
                && (Z.of_nat i <? Z.of_nat (length l))%Z)%bool = true)
    by (apply andb_true_intro; split; lia).
  by rewrite Hb, Nat2Z.id, Hx.
Qed.

(** The calls of single-job mode: none, or one session around at most one
    [execute_task]. *)
Lemma run_single_task_trace_cases catalog (task_index : Z) headless (a0 : A) :
  trace (snd (run_single_task catalog task_index headless (init_world a0))) = []
  \/ exists task,
       trace (snd (run_single_task catalog task_index headless (init_world a0)))
       = EInit headless
           :: (if returns (fst (initialize_browser headless a0))
               then [call_of task] else [])
           ++ [EClose].
Proof.
  destruct (Z_lt_ge_dec task_index (Z.of_nat (length catalog))) as [Hlt|Hge].
  - destruct (py_getitem catalog task_index) as [task|e] eqn:Hget.
    + right. exists task.
      by destruct (run_single_task_selected catalog task_index headless a0
                     task Hlt Hget) as (Ht & _).
    + left. unfold run_single_task.
      destruct (task_index >=? Z.of_nat (length catalog))%Z eqn:Eg; [lia|].
      unfold lift_res, bind at 1. by rewrite Hget.
  - left. unfold run_single_task.
    by destruct (task_index >=? Z.of_nat (length catalog))%Z eqn:Eg; [|lia].
Qed.

(** X13.  With no argument the program only prints.  It makes no call,
    leaves the agent alone and returns; between the heading and the usage
    it prints one line per job of the catalog, in catalog order, the job at
    position [i] (from 0) as "  i: [app] description". *)
Theorem main_lists_the_catalog catalog argv (a0 : A) :
  length argv <= 1 ->
  main catalog argv (init_world a0) =
  (Ret tt,
   mkWorld a0 [] []
     ([ NL +:+ "🤖 Agent B Task Runner"; NL +:+ "Available tasks:" ]
        ++ imap listing_line catalog
        ++ [ NL +:+ "Usage:";
             "  python run_tasks.py all      # Run all tasks";
             "  python run_tasks.py 0        # Run specific task";
             "" ])).
Proof.
  intros Hl. unfold main.
  destruct (1 <? length argv)%nat eqn:E; [apply Nat.ltb_lt in E; lia|].
  unfold bind, print at 1 2. cbn [init_world agent results trace stdout].
  rewrite for_enumerate_print. unfold print.
  cbn [agent results trace stdout]. rewrite <- !app_assoc. reflexivity.
Qed.

(** X14.  The number shown in the listing selects the job of its line.
    For a job at position [i] of the catalog, the listing line [i] shows
    that job under the number [i], and the program run with that number as
    its argument opens a non-headless session, calls [execute_task] for
    that very job if the session started, and closes the session. *)
Theorem main_index_of_listing catalog prog (i : nat) (task : Task) (a0 : A) :
  catalog !! i = Some task ->
  String.length (pretty i) <= int_max_str_digits ->
  imap listing_line catalog !! i =
    Some ("  " +:+ pretty i +:+ ": [" +:+ app task +:+ "] "
               +:+ description task) /\
  trace (snd (main catalog [prog; pretty i] (init_world a0))) =
    EInit false
      :: (if returns (fst (initialize_browser false a0))
          then [EExec (description task) (url task) 15] else [])
      ++ [EClose].
Proof.
  intros Ht Hlen. split.
  - by rewrite list_lookup_imap, Ht.
  - unfold main. cbn [length Nat.ltb Nat.leb].
    unfold lift_res at 1, bind at 1. cbn [py_getitem].
    change (py_getitem [prog; pretty i] 1) with (Ret (T:=string) (pretty i)).
    cbv beta iota.
    rewrite (isdigit_not_all _ (pretty_nat_isdigit i)), pretty_nat_isdigit.
    unfold lift_res, bind at 1, int_of_digits.
    apply Nat.leb_le in Hlen. rewrite Hlen, pretty_nat_value.
    apply (run_single_task_selected catalog (Z.of_nat i) false a0 task).
    + apply lookup_lt_Some in Ht. lia.
    + by apply py_getitem_nonneg.
Qed.

(** X15.  From the command line the index is never negative.  For every
    argument made of digits (within the interpreter's limit on their
    number), the program is [run_single_task] at the decimal value of the
    argument, headless off, and that value is at least 0: the wrap-around
    of negative indices and the [IndexError] below [-len] cannot be reached
    from the command line. *)
Theorem main_digit_argument catalog prog arg (w : World A) :
  str_isdigit arg = true ->
  String.length arg <= int_max_str_digits ->
  main catalog [prog; arg] w
    = run_single_task catalog (digits_value_from 0 arg) false w /\
  (0 <= digits_value_from 0 arg)%Z.
Proof.
  intros Hd Hlen. split.
  - unfold main. cbn [length Nat.ltb Nat.leb].
    unfold lift_res at 1, bind at 1.
    change (py_getitem [prog; arg] 1) with (Ret (T:=string) arg).
    cbv beta iota. rewrite (isdigit_not_all _ Hd), Hd.
    unfold lift_res, bind at 1, int_of_digits.
    apply Nat.leb_le in Hlen. by rewrite Hlen.
  - apply digits_value_nonneg; [|lia].
    unfold str_isdigit in Hd. by destruct arg.
Qed.

(** The calls of one session. *)
Lemma session_trace_balanced jobs h (mid tail : list Event) :
  Forall (loop_event jobs) mid ->
  Forall (fun ev => is_dump ev = true) tail ->
  count is_init (EInit h :: mid ++ EClose :: tail) = 1 /\
  count is_close (EInit h :: mid ++ EClose :: tail) = 1 /\
  forall h', EInit h' ∈ EInit h :: mid ++ EClose :: tail -> h' = h.
Proof.
  intros Hm Hd.
  assert (Hmi : count is_init mid = 0).
  { apply count_none. eapply Forall_impl; [exact Hm|]. intros ev Hev.
    by destruct (loop_event_kind _ _ Hev) as (? & _ & _). }
  assert (Hmc : count is_close mid = 0).
  { apply count_none. eapply Forall_impl; [exact Hm|]. intros ev Hev.
    by destruct (loop_event_kind _ _ Hev) as (_ & ? & _). }
  assert (Hti : count is_init tail = 0).
  { apply count_none. eapply Forall_impl; [exact Hd|]. by intros []. }
  assert (Htc : count is_close tail = 0).
  { apply count_none. eapply Forall_impl; [exact Hd|]. by intros []. }
  change (EInit h :: mid ++ EClose :: tail)
    with ([EInit h] ++ mid ++ [EClose] ++ tail).
  rewrite !count_app, Hmi, Hmc, Hti, Htc.
  split; [reflexivity|]. split; [reflexivity|].
  intros h' Hin. apply elem_of_app in Hin as [Hin | Hin].
  { apply list_elem_of_singleton in Hin. by injection Hin. }
  apply elem_of_app in Hin as [Hin | Hin].
  { rewrite Forall_forall in Hm. apply Hm in Hin.
    by destruct (loop_event_kind _ _ Hin) as (? & _ & _). }
  apply elem_of_app in Hin as [Hin | Hin].
  { by apply list_elem_of_singleton in Hin. }
  rewrite Forall_forall in Hd. by apply Hd in Hin.
Qed.

(** X16.  The program never leaves a session open and never runs
    headless.  For every argument list of ASCII strings and every agent:
    there are as many [initialize_browser] calls as [close_browser] calls,
    at most one of each, and every [initialize_browser] call has
    [headless=False]. *)
Theorem main_session_balanced catalog argv (a0 : A) :
  forallb str_is_ascii argv = true ->
  let tr := trace (snd (main catalog argv (init_world a0))) in
  count is_init tr = count is_close tr /\
  count is_init tr <= 1 /\
  forall h, EInit h ∈ tr -> h = false.
Proof.
  intros _. cbv zeta.
  assert (Hnil : forall tr : list Event, tr = [] ->
            count is_init tr = count is_close tr /\
            count is_init tr <= 1 /\
            forall h, EInit h ∈ tr -> h = false).
  { intros tr ->. repeat split; auto. intros h Hin.
    by apply elem_of_nil in Hin. }
  assert (Hsess : forall jobs (mid tail : list Event),
            Forall (loop_event jobs) mid ->
            Forall (fun ev => is_dump ev = true) tail ->
            count is_init (EInit false :: mid ++ EClose :: tail)
              = count is_close (EInit false :: mid ++ EClose :: tail) /\
            count is_init (EInit false :: mid ++ EClose :: tail) <= 1 /\
            forall h, EInit h ∈ EInit false :: mid ++ EClose :: tail ->
                      h = false).
  { intros jobs mid tail Hm Hd.
    destruct (session_trace_balanced jobs false mid tail Hm Hd)
      as (-> & -> & Hh). repeat split; auto. }
  assert (Hcases :
    trace (snd (main catalog argv (init_world a0))) = [] \/
    exists jobs mid tail,
      trace (snd (main catalog argv (init_world a0)))
        = EInit false :: mid ++ EClose :: tail /\
      Forall (loop_event jobs) mid /\
      Forall (fun ev => is_dump ev = true) tail).
  { remember (main catalog argv (init_world a0)) as run eqn:Hrun.
    unfold main in Hrun. destruct (1 <? length argv)%nat.
    - unfold lift_res at 1, bind at 1 in Hrun.
      destruct (py_getitem argv 1) as [arg|e]; [|subst run; by left].
      cbv beta iota in Hrun. destruct (String.eqb arg "all").
      + subst run. right.
        destruct (run_all_tasks_summary catalog false a0)
          as (mid & k & -> & _ & _ & _ & _ & _ & _ & Hm).
        eexists catalog, mid, _. split; [reflexivity|]. split; [exact Hm|].
        destruct (returns _); repeat constructor.
      + destruct (str_isdigit arg); [|subst run; by left].
        unfold lift_res, bind at 1 in Hrun.
        destruct (int_of_digits arg) as [v|e]; [|subst run; by left].
        cbv beta iota in Hrun. subst run.
        destruct (run_single_task_trace_cases catalog v false a0)
          as [-> | (task & ->)]; [by left | right].
        eexists [task], _, []. split; [reflexivity|]. split; [|constructor].
        destruct (returns _); [|constructor].
        constructor; [|constructor].
        right. exists task. split; [constructor | reflexivity].
    - subst run. left. unfold bind, print at 1 2.
      cbn [init_world agent results trace stdout].
      by rewrite for_enumerate_print. }
  destruct Hcases as [Hc | (jobs & mid & tail & -> & Hm & Hd)].
  - by apply Hnil.
  - by apply (Hsess jobs).
Qed.

End MainFacts.

(** * What the batch prints *)

Section BatchOutput.
Context {A : Type} {HA : AgentB A}.

Lemma run_one_stdout n i t (w : World A) :
  stdout (snd (run_one n i t w)) =
  stdout w
    ++ lines_of n i t (fst (execute_task (description t) (url t) 15 (agent w))).
Proof.
  unfold run_one, try_except_Exception, agent_execute_task, call_agent,
    results_append, asyncio_sleep, emit, print, bind, lines_of; simpl.
  destruct (execute_task (description t) (url t) 15 (agent w)) as [[p|e] a'];
    simpl.
  - by rewrite <- !app_assoc.
  - destruct (isinstance_Exception e); simpl; by rewrite <- !app_assoc.
Qed.

Lemma loop_stdout jobs : forall i n (w : World A),
  forallb catchable (answers jobs (agent w)) = true ->
  stdout (snd (for_enumerate jobs i (run_one n) w)) =
  stdout w ++ loop_lines n i jobs (answers jobs (agent w)).
Proof.
  induction jobs as [|t ts IH]; intros i n w Hc.
  - simpl. by rewrite app_nil_r.
  - rewrite for_enumerate_cons.
    pose proof (run_one_stdout n i t w) as Hout.
    destruct (run_one_spec n i t w) as [out Hspec].
    rewrite Hspec in Hout |- *. clear Hspec.
    cbn [answers loop_lines] in Hc |- *.
    destruct (execute_task (description t) (url t) 15 (agent w)) as [r a'].
    cbn [forallb fst snd stdout] in Hc, Hout |- *.
    apply andb_prop in Hc as [Hr Hc].
    assert (Hres : (match r with
                    | Ret _ => Ret tt
                    | Raise e => if isinstance_Exception e then Ret tt else Raise e
                    end) = Ret tt).
    { destruct r as [p|e]; [done|]. simpl in Hr. by rewrite Hr. }
    rewrite Hres, IH by exact Hc. cbn [stdout agent].
    by rewrite Hout, <- app_assoc.
Qed.

Lemma loop_lines_lookup n jobs : forall i (ans : list (Res string)) k t r line,
  jobs !! k = Some t -> ans !! k = Some r ->
  line ∈ lines_of n (i + k) t r ->
  line ∈ loop_lines n i jobs ans.
Proof.
  induction jobs as [|t' ts IH]; intros i [|r' ans] k t r line Ht Hr Hin;
    try done.
  cbn [loop_lines]. apply elem_of_app. destruct k as [|k].
  - left. simpl in Ht, Hr. rewrite Nat.add_0_r in Hin. congruence.
  - right. apply (IH (S i) ans k t r); [done | done |].
    by rewrite <- Nat.add_succ_comm in Hin.
Qed.

Lemma after_close_stdout rl (wl : World A) :
  exists tail, stdout (snd (after_close rl wl)) = stdout wl ++ tail.
Proof.
  unfold after_close.
  destruct (close_browser (agent wl)) as [[uc|ec] ac], rl; cbn [snd stdout];
    first [ by eexists | exists []; by rewrite app_nil_r ].
Qed.

(** X17.  Jobs are announced from 1, and every failure has its line.  When
    the session starts and every answer is a return or an [Exception], the
    job at position [k] of the catalog (from 0) is announced as
    "TASK k+1/n: app"; if it succeeded the run prints the line that task
    k+1 completed, and if it failed the line that task k+1 failed, with the
    text of the failure. *)
Theorem run_all_tasks_reports_each_job catalog headless (a0 a1 : A)
    (k : nat) (task : Task) (r : Res string) :
  initialize_browser headless a0 = (Ret tt, a1) ->
  forallb catchable (answers catalog a1) = true ->
  catalog !! k = Some task ->
  answers catalog a1 !! k = Some r ->
  let out := stdout (snd (run_all_tasks catalog headless (init_world a0))) in
  ("TASK " +:+ pretty (S k) +:+ "/" +:+ pretty (length catalog) +:+ ": "
     +:+ app task) ∈ out /\
  match r with
  | Ret _ =>
      (NL +:+ "✅ Task " +:+ pretty (S k) +:+ " completed successfully!") ∈ out
  | Raise e =>
      (NL +:+ "❌ Task " +:+ pretty (S k) +:+ " failed: " +:+ str_exn e) ∈ out
  end.
Proof.
  intros Hi Hc Hk Hr. cbv zeta.
  assert (Hlines : forall line,
            line ∈ lines_of (length catalog) (S k) task r ->
            line ∈ stdout (snd (run_all_tasks catalog headless (init_world a0)))).
  { intros line Hin. rewrite run_all_tasks_eq. simpl. rewrite Hi.
    set (wi := mkWorld a1 _ _ _).
    pose proof (loop_stdout catalog 1 (length catalog) wi Hc) as Hout.
    destruct (for_enumerate catalog 1 (run_one (length catalog)) wi)
      as [rl wl].
    destruct (after_close_stdout rl wl) as [tail ->].
    subst wi. cbn [snd stdout agent] in Hout. rewrite Hout.
    apply elem_of_app. left. apply elem_of_app. right.
    by apply (loop_lines_lookup _ catalog 1 _ k task r). }
  assert (Hcatch : catchable r = true).
  { rewrite forallb_forall in Hc. apply Hc.
    apply list_elem_of_In, list_elem_of_lookup. by exists k. }
  split.
  - apply Hlines. unfold lines_of. apply elem_of_app. left.
    apply list_elem_of_further, list_elem_of_here.
  - destruct r as [p|e].
    + apply Hlines. unfold lines_of. apply elem_of_app. right.
      apply list_elem_of_here.
    + apply Hlines. unfold lines_of. apply elem_of_app. right.
      simpl in Hcatch. rewrite Hcatch. apply list_elem_of_here.
Qed.

End BatchOutput.

(** * Instances of the further theorems *)

Lemma run_all_tasks_interrupted_witness :
  initialize_browser false fake_interrupted = (Ret tt, fake_interrupted_started) /\
  forallb catchable (answers [jobA] fake_interrupted_started) = true /\
  execute_task (description jobB) (url jobB) 15
      (agent_after [jobA] fake_interrupted_started)
    = (Raise (BaseException "KeyboardInterrupt"), fake_interrupted_stopped) /\
  isinstance_Exception (BaseException "KeyboardInterrupt") = false /\
  results (snd (run_all_tasks ([jobA] ++ jobB :: [jobA]) false
                  (init_world fake_interrupted))) = [successA] /\
  fst (run_all_tasks ([jobA] ++ jobB :: [jobA]) false
         (init_world fake_interrupted))
    = Raise (BaseException "KeyboardInterrupt").
Proof.
  do 4 (split; [reflexivity|]).
  destruct (run_all_tasks_interrupted (HA := Fake_AgentB) [jobA] jobB [jobA]
              false fake_interrupted fake_interrupted_started
              fake_interrupted_stopped (BaseException "KeyboardInterrupt")
              ltac:(reflexivity) ltac:(reflexivity) ltac:(reflexivity)
              ltac:(reflexivity))
    as (Hr & _ & _ & _ & Hf).
  split; [exact Hr | exact Hf].
Defined.

Lemma run_all_tasks_close_fails_witness :
  initialize_browser false fake_close_fails = (Ret tt, fake_close_fails_started) /\
  forallb catchable (answers [jobA; jobB] fake_close_fails_started) = true /\
  close_browser (agent_after [jobA; jobB] fake_close_fails_started)
    = (Raise (Exception "browser gone"), fake_close_fails_closed) /\
  fst (run_all_tasks [jobA; jobB] false (init_world fake_close_fails))
    = Raise (Exception "browser gone") /\
  count is_dump
    (trace (snd (run_all_tasks [jobA; jobB] false (init_world fake_close_fails))))
    = 0.
Proof.
  do 3 (split; [reflexivity|]).
  destruct (run_all_tasks_close_fails (HA := Fake_AgentB) [jobA; jobB] false
              fake_close_fails fake_close_fails_started
              fake_close_fails_closed (Exception "browser gone")
              ltac:(reflexivity) ltac:(reflexivity) ltac:(reflexivity))
    as (Hf & _ & Hd & _).
  split; [exact Hf | exact Hd].
Defined.

Lemma run_all_tasks_ignores_expected_states_witness :
  Forall2 same_job [jobA; jobB] [jobA'; jobB] /\
  trace (snd (run_all_tasks [jobA; jobB] false (init_world fake_AB)))
    = trace (snd (run_all_tasks [jobA'; jobB] false (init_world fake_AB))).
Proof.
  assert (Hs : Forall2 same_job [jobA; jobB] [jobA'; jobB])
    by (repeat constructor).
  split; [exact Hs|].
  destruct (run_all_tasks_ignores_expected_states (HA := Fake_AgentB)
              [jobA; jobB] [jobA'; jobB] false fake_AB Hs)
    as (_ & Ht & _).
  exact Ht.
Defined.

Lemma run_all_tasks_tally_matches_report_witness :
  fst (run_all_tasks [jobA; jobB] false (init_world fake_AB)) = Ret tt /\
  exists report out,
    last (trace (snd (run_all_tasks [jobA; jobB] false (init_world fake_AB))))
      = Some (EDump report) /\
    stdout (snd (run_all_tasks [jobA; jobB] false (init_world fake_AB))) =
      out ++
      [ NL +:+ "📊 Summary report generated: dataset_summary.json";
        NL +:+ banner; "ALL TASKS COMPLETED"; banner;
        NL +:+ "Total tasks: " +:+ pretty (total_tasks report);
        "Successful: " +:+ pretty (successful_tasks report);
        "Failed: " +:+ pretty (failed_tasks report);
        NL +:+ "Dataset location: ./captured_states/";
        "Summary report: ./dataset_summary.json" ].
Proof.
  split; [reflexivity|].
  exact (run_all_tasks_tally_matches_report (HA := Fake_AgentB)
           [jobA; jobB] false fake_AB ltac:(reflexivity)).
Defined.

Lemma run_single_task_negative_index_witness :
  (- Z.of_nat (length TASKS) <= -1 < 0)%Z /\
  TASKS !! Z.to_nat (Z.of_nat (length TASKS) + -1)
    = Some (mkTask "Notion" "Filter a database by property in Notion"
              "https://www.notion.so/"
              [ "Database view"; "Filter button visible";
                "Filter options panel"; "Property selection";
                "Filter applied"; "Filtered database results" ]) /\
  trace (snd (run_single_task TASKS (-1) false (init_world (fake [])))) =
    [ EInit false;
      EExec "Filter a database by property in Notion" "https://www.notion.so/" 15;
      EClose ].
Proof.
  split; [simpl; lia|]. split; [reflexivity|].
  exact (run_single_task_negative_index (HA := Fake_AgentB) TASKS (-1) false
           (fake []) _ ltac:(simpl; lia) ltac:(reflexivity)).
Defined.


Lemma main_lists_the_catalog_witness :
  length ["run_task.py"] <= 1 /\
  stdout (snd (main TASKS ["run_task.py"] (init_world (fake [])))) =
    [ NL +:+ "🤖 Agent B Task Runner"; NL +:+ "Available tasks:";
      "  0: [Linear] Create a new project in Linear";
      "  1: [Linear] Create a new issue in Linear";
      "  2: [Linear] Filter issues by status in Linear";
      "  3: [Notion] Create a new page in Notion";
      "  4: [Notion] Filter a database by property in Notion";
      NL +:+ "Usage:";
      "  python run_tasks.py all      # Run all tasks";
      "  python run_tasks.py 0        # Run specific task";
      "" ].
Proof.
  split; [simpl; lia|].
  rewrite (main_lists_the_catalog (HA := Fake_AgentB) TASKS ["run_task.py"]
             (fake []) ltac:(simpl; lia)).
  reflexivity.
Defined.

Lemma main_index_of_listing_witness :
  [jobA; jobB] !! 1 = Some jobB /\
  String.length (pretty 1) <= int_max_str_digits /\
  trace (snd (main [jobA; jobB] ["run_task.py"; pretty 1] (init_world (fake []))))
    = [EInit false; EExec "do B" "https://b.example/" 15; EClose].
Proof.
  split; [reflexivity|]. split; [vm_compute; lia|].
  destruct (main_index_of_listing (HA := Fake_AgentB) [jobA; jobB]
              "run_task.py" 1 jobB (fake [])
              ltac:(reflexivity) ltac:(vm_compute; lia))
    as [_ Ht].
  exact Ht.
Defined.

Lemma main_digit_argument_witness :
  str_isdigit "007" = true /\
  String.length "007" <= int_max_str_digits /\
  main TASKS ["run_task.py"; "007"] (init_world (fake []))
    = run_single_task TASKS 7 false (init_world (fake [])).
Proof.
  split; [reflexivity|]. split; [vm_compute; lia|].
  destruct (main_digit_argument (HA := Fake_AgentB) TASKS "run_task.py" "007"
              (init_world (fake [])) ltac:(reflexivity) ltac:(vm_compute; lia))
    as [Hm _].
  exact Hm.
Defined.

Lemma main_session_balanced_witness :
  forallb str_is_ascii ["run_task.py"; "all"] = true /\
  count is_init
    (trace (snd (main [jobA; jobB] ["run_task.py"; "all"] (init_world fake_AB))))
  = count is_close
    (trace (snd (main [jobA; jobB] ["run_task.py"; "all"] (init_world fake_AB)))).
Proof.
  split; [reflexivity|].
  destruct (main_session_balanced (HA := Fake_AgentB) [jobA; jobB]
              ["run_task.py"; "all"] fake_AB ltac:(reflexivity))
    as [Hb _].
  exact Hb.
Defined.

Lemma run_all_tasks_reports_each_job_witness :
  initialize_browser false fake_AB = (Ret tt, fake_AB_started) /\
  forallb catchable (answers [jobA; jobB] fake_AB_started) = true /\
  [jobA; jobB] !! 0 = Some jobA /\
  answers [jobA; jobB] fake_AB_started !! 0 = Some (Raise (Exception "boom")) /\
  (NL +:+ "❌ Task 1 failed: boom")
    ∈ stdout (snd (run_all_tasks [jobA; jobB] false (init_world fake_AB))).
Proof.
  do 4 (split; [reflexivity|]).
  destruct (run_all_tasks_reports_each_job (HA := Fake_AgentB) [jobA; jobB]
              false fake_AB fake_AB_started 0 jobA (Raise (Exception "boom"))
              ltac:(reflexivity) ltac:(reflexivity) ltac:(reflexivity)
              ltac:(reflexivity))
    as [_ Hl].
  exact Hl.
Defined.
